(** * Test run orchestrator of freeCodeCampOS ([tooling/tests/main.js])

    A shallow embedding of [runTests], [checkTestsCallback],
    [handleWorkerExit], [removeWorkerFromPool] and the worker message
    handler of the test-run orchestrator.

    The asynchronous JavaScript functions are modelled in a small
    state-and-exception monad [M]: the state holds the run's [testsState]
    array, the process-wide [WORKER_POOL] and the trace of every observable
    side effect (logger calls, websocket updates, plugin events, persisted
    configuration, worker creation and posted messages).  A [throw] that is
    not caught ends the function with [Throw].  Every callback ([message],
    [exit]) runs to completion before the next one starts, which is one of
    the schedules the JavaScript event loop allows.

    The code-execution backends ([eval] for the [Node] runner, [runPython]
    for the [Python] runner) and the localisation function [t] are external
    collaborators: they are Section variables, so every theorem holds for
    every behaviour of them. *)

From Stdlib Require Import ZArith Ascii String.
From stdpp Require Import base list sets strings gmap.

Open Scope string_scope.
Open Scope list_scope.

(** ** Data model *)

(** A hook or a test as read from the lesson: [{ runner, code }]; tests
    also carry their [text].  Hooks are [{ runner: string; code: string } | null]
    (JSDoc of [handleWorkerExit]); an absent hook is [None]. *)
Record tester := mkTester { runner : string; code : string }.

Record test := mkTest { test_text : string; test_code : string; test_runner : string }.

Definition test_as_tester (x : test) : tester := mkTester (test_runner x) (test_code x).

Record lesson := mkLesson {
  beforeAll : option tester;
  beforeEach : option tester;
  afterAll : option tester;
  afterEach : option tester;
  hints : list string;
  tests : list test
}.

(** The fields of the project configuration that the orchestrator reads. *)
Record project := mkProject {
  dashedName : string;
  currentLesson : Z;
  numberOfLessons : Z;
  isIntegrated : bool;
  blockingTests : bool
}.

(** One element of [testsState]: [{ passed, testText, testId, isLoading }]. *)
Record test_state := mkTestState {
  passed : bool;
  testText : string;
  testId : nat;
  isLoading : bool
}.

Definition set_loading (b : bool) (x : test_state) : test_state :=
  mkTestState (passed x) (testText x) (testId x) b.

Definition set_passed (b : bool) (x : test_state) : test_state :=
  mkTestState b (testText x) (testId x) (isLoading x).

(** The [error] object a worker sends with its result. *)
Record worker_error := mkWorkerError { err_type : string; err_message : string }.

(** A worker message: [{ passed, testId, error }]; [error] is optional. *)
Record message := mkMessage {
  msg_passed : bool;
  msg_testId : nat;
  msg_error : option worker_error
}.

(** The [error] field of a console entry: the worker's error object or the
    string ['Tests cancelled.']. *)
Inductive error_value :=
| ErrObject (e : worker_error)
| ErrText (s : string).

Inductive console_payload :=
| ConsoleText (s : string)
| ConsoleTestError (x : test_state) (e : error_value).

(** The lifecycle notifications of [pluginEvents]; all of them receive the
    run's [project], which is left implicit. *)
Inductive plugin_event :=
| OnTestsStart (ts : list test_state)
| OnTestsEnd (ts : list test_state)
| OnLessonPassed
| OnLessonFailed
| OnProjectFinished.

(** The partial configurations passed to [setProjectConfig];
    [completedDate: Date.now()] is recorded without its time value. *)
Inductive config_patch :=
| CompletedDate
| CurrentLesson (n : Z).

(** Worker names: ['blocking-worker'] and [`worker-${i}`]. *)
Inductive worker_name :=
| BlockingWorker
| IndexedWorker (i : nat).

(** Exceptions raised in the modelled code. *)
Inductive exc :=
| RunnerMismatch (found expected : string)
| UnsupportedRunner (r : string)
| HookThrew (code : string)
| TypeError.

Inductive event :=
| LogDebug (s : string)
| LogError (s : string)
| LogException (e : exc)
| LogTestError (id : nat) (e : worker_error)
| Plugin (p : plugin_event)
| UpdateTests (ts : list test_state)
| UpdateTest (x : test_state)
| UpdateConsole (c : console_payload)
| UpdateHints (h : list string)
| ResetBottomPanel
| HandleProjectFinish
| SetProjectConfig (name : string) (p : config_patch)
| RunLesson (name : string)
| CreateWorker (name : worker_name) (r : string) (handle : nat)
| PostMessage (handle : nat) (testId : nat).

(** The state threaded through the orchestrator: the run's [testsState],
    the process-wide [WORKER_POOL] (workers are identified by handles),
    the trace of side effects and the next fresh worker handle. *)
Record st := mkSt {
  testsState : list test_state;
  WORKER_POOL : list nat;
  trace : list event;
  fresh : nat
}.

(** ** The state-and-exception monad *)

Inductive outcome (A : Type) :=
| Ok (a : A)
| Throw (e : exc).
Arguments Ok {A} a.
Arguments Throw {A} e.

Definition M (A : Type) : Type := st -> outcome A * st.

Global Instance M_ret : MRet M := fun A a s => (Ok a, s).
Global Instance M_bind : MBind M := fun A B f m s =>
  match m s with
  | (Ok a, s') => f a s'
  | (Throw e, s') => (Throw e, s')
  end.

Definition throw {A} (e : exc) : M A := fun s => (Throw e, s).

(** [try { m } catch (e) { h(e) }] *)
Definition try_catch {A} (m : M A) (h : exc -> M A) : M A := fun s =>
  match m s with
  | (Ok a, s') => (Ok a, s')
  | (Throw e, s') => h e s'
  end.

Definition emit (e : event) : M unit := fun s =>
  (Ok tt, mkSt (testsState s) (WORKER_POOL s) (trace s ++ [e]) (fresh s)).

Definition get_tests : M (list test_state) := fun s => (Ok (testsState s), s).

Definition put_tests (ts : list test_state) : M unit := fun s =>
  (Ok tt, mkSt ts (WORKER_POOL s) (trace s) (fresh s)).

Definition put_pool (p : list nat) : M unit := fun s =>
  (Ok tt, mkSt (testsState s) p (trace s) (fresh s)).

Definition get_pool : M (list nat) := fun s => (Ok (WORKER_POOL s), s).

(** [testsState[i]]: reading a property of [undefined] raises a [TypeError]. *)
Definition get_test (i : nat) : M test_state := fun s =>
  match testsState s !! i with
  | Some x => (Ok x, s)
  | None => (Throw TypeError, s)
  end.

(** [testsState[i].field = v] *)
Definition modify_test (i : nat) (f : test_state -> test_state) : M unit :=
  x ← get_test i; ts ← get_tests; put_tests (<[i := f x]> ts).

(** [for (const x of l) body(x)] *)
Fixpoint for_each {A} (l : list A) (body : A -> M unit) : M unit :=
  match l with
  | [] => mret tt
  | x :: l' => body x ;; for_each l' body
  end.

(** [for (let i = 0; i < l.length; i++) body(i, l[i])], collecting results. *)
Fixpoint for_each_i {A B} (i : nat) (l : list A) (body : nat -> A -> M B) : M (list B) :=
  match l with
  | [] => mret []
  | x :: l' => b ← body i x; bs ← for_each_i (S i) l' body; mret (b :: bs)
  end.

(** [new Worker(...)]: a fresh handle, recorded in the trace. *)
Definition createWorker (name : worker_name) (r : string) : M nat := fun s =>
  (Ok (fresh s),
   mkSt (testsState s) (WORKER_POOL s) (trace s ++ [CreateWorker name r (fresh s)]) (S (fresh s))).

(** [WORKER_POOL.push(worker)] *)
Definition push_worker (h : nat) : M unit :=
  p ← get_pool; put_pool (p ++ [h]).

(** [Array.prototype.indexOf], [None] standing for [-1]. *)
Fixpoint index_of (h : nat) (l : list nat) : option nat :=
  match l with
  | [] => None
  | x :: l' => if Nat.eqb x h then Some 0 else S <$> index_of h l'
  end.

(** [removeWorkerFromPool] *)
Definition removeWorkerFromPool (h : nat) : M unit :=
  p ← get_pool;
  match index_of h p with
  | Some index => put_pool (take index p ++ drop (S index) p)
  | None => mret tt
  end.

(** [tester !== null] *)
Definition non_null (o : option tester) : bool :=
  match o with Some _ => true | None => false end.

(** [a || b] on [string | undefined] operands. *)
Definition js_or_string (a : option string) (b : string) : string :=
  match a with
  | Some x => if String.eqb x "" then b else x
  | None => b
  end.

(** The values captured by the [message] and [exit] callbacks of a run. *)
Record env := mkEnv {
  env_project : project;
  env_hints : list string;
  env_lessonNumber : Z;
  env_afterAll : option tester;
  env_afterEach : option tester
}.

(** The events delivered to a run's listeners. *)
Inductive worker_event :=
| WorkerMessage (m : message)
| WorkerExit (handle : nat) (exitCode : Z).

Section Orchestrator.

(** [await eval(`(async () => {code})()`)] resolves ([true]) or throws. *)
Variable node_eval : string -> bool.
(** [await runPython(code)] resolves ([true]) or throws. *)
Variable runPython : string -> bool.
(** The localisation collaborator [t(key, {})]: [undefined] is [None]. *)
Variable t : string -> option string.

(** The [switch (hook.runner)] shared by the hook call sites. *)
Definition exec_hook (h : tester) : M unit :=
  if String.eqb (runner h) "Node" then
    (if node_eval (code h) then mret tt else throw (HookThrew (code h)))
  else if String.eqb (runner h) "Python" then
    (if runPython (code h) then mret tt else throw (HookThrew (code h)))
  else throw (UnsupportedRunner (runner h)).

(** A hook call site: [if (hook) { try { debug; switch; debug } catch (e)
    { error; error(e) } }], with [name] one of [before-all], [after-each],
    [after-all].  (The [try] of [afterEach] encloses the [if]; without a
    hook both forms do nothing.) *)
Definition hook_block (name : string) (h : option tester) : M unit :=
  match h with
  | None => mret tt
  | Some hk =>
      try_catch
        (emit (LogDebug ("Starting: --" ++ name ++ "-- hook")%string);;
         exec_hook hk;;
         emit (LogDebug ("Finished: --" ++ name ++ "-- hook")%string))
        (fun e => emit (LogError ("--" ++ name ++ "-- hook failed to run:")%string);;
                  emit (LogException e))
  end.

(** [checkTestsCallback] *)
Definition checkTestsCallback (E : env) : M unit :=
  let p := env_project E in
  let lessonNumber := env_lessonNumber E in
  ts ← get_tests;
  (if forallb passed ts then
     emit (Plugin OnLessonPassed);;
     emit ResetBottomPanel;;
     (if isIntegrated p || Z.eqb lessonNumber (numberOfLessons p - 1) then
        emit (Plugin OnProjectFinished);;
        emit (SetProjectConfig (dashedName p) CompletedDate);;
        emit HandleProjectFinish
      else
        emit (SetProjectConfig (dashedName p) (CurrentLesson (lessonNumber + 1)));;
        emit (RunLesson (dashedName p)))
   else
     emit (Plugin OnLessonFailed);;
     emit (UpdateHints (env_hints E)));;
  ts' ← get_tests;
  if forallb (fun x => negb (isLoading x)) ts' then
    hook_block "after-all" (env_afterAll E);;
    ts'' ← get_tests;
    emit (Plugin (OnTestsEnd ts''));;
    (* WORKER_POOL.splice(0, WORKER_POOL.length) *)
    put_pool []
  else mret tt.

(** The cancellation of test [j]: [isLoading = false; passed = false] and
    the console entry [{ ...testsState[j], error: 'Tests cancelled.' }]. *)
Definition cancel_test (j : nat) : M unit :=
  modify_test j (set_loading false);;
  modify_test j (set_passed false);;
  x ← get_test j;
  emit (UpdateConsole (ConsoleTestError x (ErrText "Tests cancelled."))).

(** The [testsState.forEach] callback of the blocking branch:
    [if (test.isLoading) { ... }]. *)
Definition cancel_loading (j : nat) : M unit :=
  x ← get_test j;
  if isLoading x then cancel_test j else mret tt.

(** [handleWorkerExit]; [i] is [undefined] ([None]) for the blocking worker. *)
Definition handleWorkerExit (E : env) (exitCode : Z) (i : option nat) : M unit :=
  (if Z.eqb exitCode 1 then
     (match i with
      | Some i => cancel_test i
      | None =>
          ts ← get_tests;
          for_each (seq 0 (length ts)) cancel_loading
      end);;
     ts ← get_tests;
     emit (UpdateTests ts)
   else mret tt);;
  hook_block "after-each" (env_afterEach E);;
  checkTestsCallback E.

(** [workerMessage] *)
Definition workerMessage (E : env) (m : message) : M unit :=
  let testId := msg_testId m in
  modify_test testId (set_loading false);;
  modify_test testId (set_passed (msg_passed m));;
  (match msg_error m with
   | None => mret tt
   | Some error =>
       (if String.eqb (err_type error) "AssertionError" then mret tt
        else emit (LogTestError testId error));;
       let error' :=
         if String.eqb (err_message error) "" then error
         else mkWorkerError (err_type error)
                (js_or_string (t (err_message error)) (err_message error)) in
       x ← get_test testId;
       emit (UpdateConsole (ConsoleTestError x (ErrObject error')))
   end);;
  x ← get_test testId;
  emit (UpdateTest x);;
  checkTestsCallback E.

(** The hooks and tests of a lesson in the order of [testers]. *)
Definition lesson_testers (l : lesson) : list (option tester) :=
  [beforeAll l; beforeEach l; afterAll l; afterEach l]
    ++ map (fun x => Some (test_as_tester x)) (tests l).

(** The initial [testsState] built by [tests.map]. *)
Definition initial_tests_state (p : project) (l : lesson) : list test_state :=
  imap (fun i x => mkTestState false (test_text x) i (negb (blockingTests p))) (tests l).

(** The values the callbacks of a run of [runTests] close over. *)
Definition run_env (p : project) (l : lesson) : env :=
  mkEnv p (hints l) (currentLesson p) (afterAll l) (afterEach l).

(** The body of the runner-consistency loop [for (const tester of testers)]. *)
Definition check_runner (firstRunner : string) (o : option tester) : M unit :=
  match o with
  | None => mret tt
  | Some x =>
      if String.eqb (runner x) firstRunner then mret tt
      else throw (RunnerMismatch (runner x) firstRunner)
  end.

(** The body of the dispatch loop of the blocking branch: all tests are
    posted to the one [worker]. *)
Definition dispatch_blocking (worker : nat) (i : nat) (x : test) : M unit :=
  modify_test i (set_loading true);;
  y ← get_test i;
  emit (UpdateTest y);;
  emit (PostMessage worker i).

(** The body of the dispatch loop of the parallel branch: one worker per
    test, registered with its test index [i]. *)
Definition dispatch_parallel (i : nat) (x : test) : M (nat * option nat) :=
  modify_test i (set_loading true);;
  y ← get_test i;
  emit (UpdateTest y);;
  worker ← createWorker (IndexedWorker i) (test_runner x);
  push_worker worker;;
  emit (PostMessage worker i);;
  mret (worker, Some i).

(** [runTests] after [getProjectConfig] and [getLesson]: returns the exit
    listeners it registered, each a worker handle with the test index [i]
    it passes to [handleWorkerExit] ([None] for the blocking worker). *)
Definition runTests (p : project) (l : lesson) : M (list (nat * option nat)) :=
  put_tests [];;
  try_catch
    (let testers := lesson_testers l in
     firstRunner ←
       (match hd_error (List.filter non_null testers) with
        | Some (Some t0) => mret (runner t0)
        | _ => throw TypeError (* [.at(0)] is [undefined]: [.runner] throws *)
        end);
     for_each testers (check_runner firstRunner);;
     hook_block "before-all" (beforeAll l);;
     put_tests (initial_tests_state p l);;
     ts ← get_tests;
     emit (Plugin (OnTestsStart ts));;
     emit (UpdateTests ts);;
     emit (UpdateConsole (ConsoleText ""));;
     if blockingTests p then
       worker ← createWorker BlockingWorker firstRunner;
       push_worker worker;;
       for_each_i 0 (tests l) (dispatch_blocking worker);;
       mret [(worker, None)]
     else
       for_each_i 0 (tests l) dispatch_parallel)
    (fun e => emit (LogError "Test Error: ");; emit (LogException e);; mret []).

(** The listener of a worker handle: [Some i] for the [exit] callback of
    a worker registered by this run. *)
Fixpoint listener_of (h : nat) (ls : list (nat * option nat)) : option (option nat) :=
  match ls with
  | [] => None
  | (h', i) :: ls' => if Nat.eqb h h' then Some i else listener_of h ls'
  end.

(** The [message] and [exit] callbacks: [worker.exited = true] is not
    read by this module and is left out. *)
Definition on_worker_event (E : env) (ls : list (nat * option nat)) (ev : worker_event) : M unit :=
  match ev with
  | WorkerMessage m => workerMessage E m
  | WorkerExit h exitCode =>
      match listener_of h ls with
      | Some i => removeWorkerFromPool h;; handleWorkerExit E exitCode i
      | None => mret tt
      end
  end.

(** Callbacks run one after the other; a callback whose promise rejects
    leaves its effects up to the throw and does not stop the others. *)
Fixpoint run_events (E : env) (ls : list (nat * option nat)) (evs : list worker_event) (s : st) : st :=
  match evs with
  | [] => s
  | ev :: evs' => run_events E ls evs' (snd (on_worker_event E ls ev s))
  end.

(** A whole run: [runTests] and then the worker events in order. *)
Definition run (p : project) (l : lesson) (evs : list worker_event) (s : st) : st :=
  match runTests p l s with
  | (Ok ls, s1) => run_events (run_env p l) ls evs s1
  | (Throw _, s1) => s1
  end.

End Orchestrator.

(** * Log helpers of the test utilities ([tooling/test-utils.ts])

    The files under [.logs/] are read with [readFile(path, { flag: "a+" })]:
    a missing file is created empty and read as [""].  Paths are relative
    to [ROOT]; the file system is a finite map from paths to contents. *)

Definition fsys := gmap string string.

Definition PATH_BASH_HISTORY : string := ".logs/.bash_history.log".
Definition PATH_CWD : string := ".logs/.cwd.log".

(** [readFile(path, { encoding: "utf8", flag: "a+" })] *)
Definition readFile_a_plus (path : string) (fs : fsys) : string * fsys :=
  match fs !! path with
  | Some c => (c, fs)
  | None => ("", <[path := ""]> fs)
  end.

Definition getBashHistory (fs : fsys) : string * fsys := readFile_a_plus PATH_BASH_HISTORY fs.

Definition getCWD (fs : fsys) : string * fsys := readFile_a_plus PATH_CWD fs.

Definition newline : ascii := "010"%char.

(** [String.prototype.split] with a one-character separator: the pieces
    between separators, [[""]] for the empty string. *)
Fixpoint split_on (c : ascii) (s : string) : list string :=
  match s with
  | EmptyString => [""]
  | String a s' =>
      if Ascii.eqb a c then "" :: split_on c s'
      else match split_on c s' with
           | w :: ws => String a w :: ws
           | [] => [String a ""]
           end
  end.

(** [arr[i]] for an integer [i]: [undefined] ([None]) when [i] is negative
    or past the end. *)
Definition js_index {A} (l : list A) (i : Z) : option A :=
  if Z.ltb i 0 then None else l !! Z.to_nat i.

(** [getLastCommand(howManyBack)] for an integer [howManyBack]. *)
Definition getLastCommand (howManyBack : Z) (fs : fsys) : option string * fsys :=
  let '(bashLogs, fs') := getBashHistory fs in
  let logs := List.filter (fun l => negb (String.eqb l "")) (split_on newline bashLogs) in
  (js_index logs (Z.of_nat (length logs) - howManyBack - 1), fs').

(** [getLastCWD(howManyBack)] for an integer [howManyBack]. *)
Definition getLastCWD (howManyBack : Z) (fs : fsys) : option string * fsys :=
  let '(currentWorkingDirectory, fs') := getCWD fs in
  let logs := List.filter (fun l => negb (String.eqb l "")) (split_on newline currentWorkingDirectory) in
  (js_index logs (Z.of_nat (length logs) - howManyBack - 1), fs').

(** * Lesson seeding ([tooling/seed.js])

    [runCommands], [runCommand], [runSeed], [runLessonSeed] and
    [seedLesson] in a state-and-exception monad [SM] whose state holds the
    file system, the persisted [lastSeed] and the trace of side effects
    (commands executed, logger calls, watcher calls, file writes and
    websocket error updates). *)

(** An element of a lesson's seed: a shell command or a file seed
    [{ filePath, fileSeed }]. *)
Inductive seed_item :=
| SeedCommand (cmd : string)
| SeedFile (filePath fileSeed : string).

Inductive seed_exc :=
| ExecError (cmd : string)        (* [execute] rejects: non-zero exit status *)
| StderrReject (stderr : string)  (* [Promise.reject(stderr)] *)
| WriteError (path : string)      (* [writeFile] rejects *)
| LessonError                     (* [pluginEvents.getLesson] rejects *)
| SeedTypeError                   (* a property read of [undefined] *)
| WrappedError (e : seed_exc).    (* [new Error(e)] *)

Inductive seed_event :=
| SExec (cmd : string) (cwd : option string)
| SLogDebug (args : list string)
| SLogError (s : string)
| SLogErrorLesson (msg : string) (n : Z)
| SLogErrorExc (e : seed_exc)
| SUnwatch (path : string)
| SWatch (path : string)
| SWriteFile (path contents : string)
| SUpdateError (e : seed_exc).

Record sst := mkSSt {
  files : fsys;
  lastSeed : option (Z * Z);
  slog : list seed_event
}.

Inductive soutcome (A : Type) :=
| SOk (a : A)
| SThrow (e : seed_exc).
Arguments SOk {A} a.
Arguments SThrow {A} e.

Definition SM (A : Type) : Type := sst -> soutcome A * sst.

Global Instance SM_ret : MRet SM := fun A a s => (SOk a, s).
Global Instance SM_bind : MBind SM := fun A B f m s =>
  match m s with
  | (SOk a, s') => f a s'
  | (SThrow e, s') => (SThrow e, s')
  end.

Definition sthrow {A} (e : seed_exc) : SM A := fun s => (SThrow e, s).

Definition stry_catch {A} (m : SM A) (h : seed_exc -> SM A) : SM A := fun s =>
  match m s with
  | (SOk a, s') => (SOk a, s')
  | (SThrow e, s') => h e s'
  end.

Definition semit (e : seed_event) : SM unit := fun s =>
  (SOk tt, mkSSt (files s) (lastSeed s) (slog s ++ [e])).

Fixpoint sfor_each {A} (l : list A) (body : A -> SM unit) : SM unit :=
  match l with
  | [] => mret tt
  | x :: l' => body x ;; sfor_each l' body
  end.

Definition truthy (s : string) : bool := negb (String.eqb s "").

Section Seeding.

(** [await execute(command, { cwd })] ([cwd] absent: the process's
    directory): [{ stdout, stderr }], or [None] when the promise rejects. *)
Variable execute : string -> option string -> option (string * string).
(** Whether [writeFile] at a path resolves. *)
Variable writable : string -> bool.
(** [pluginEvents.getProject(projectId)]: the [id] of the project, [None]
    for [undefined]. *)
Variable getProject : Z -> option Z.
(** [(await getState()).projects[id].currentLesson]; [None] when
    [projects[id]] is [undefined]. *)
Variable projects : Z -> option Z.
(** [(await pluginEvents.getLesson(projectId, lessonNumber)).seed];
    [None] when the promise rejects. *)
Variable getLesson : Z -> Z -> option (list seed_item).

Definition sexecute (command : string) (cwd : option string) : SM (string * string) := fun s =>
  let s' := mkSSt (files s) (lastSeed s) (slog s ++ [SExec command cwd]) in
  match execute command cwd with
  | Some out => (SOk out, s')
  | None => (SThrow (ExecError command), s')
  end.

(** [runCommands] *)
Definition runCommands (commands : list string) : SM unit :=
  sfor_each commands (fun command =>
    '(stdout, stderr) ← sexecute command None;
    (if truthy stdout then semit (SLogDebug [stdout]) else mret tt);;
    if truthy stderr then semit (SLogError stderr);; sthrow (StderrReject stderr)
    else mret tt).

(** [runCommand(command, path = ".")]; the [cwd] is [join(ROOT, path)]. *)
Definition runCommand (command : string) (path : string) : SM (string * string) :=
  sexecute command (Some path).

(** [runSeed(fileSeed, filePath)] *)
Definition runSeed (fileSeed filePath : string) : SM unit := fun s =>
  if writable filePath then
    (SOk tt, mkSSt (<[filePath := fileSeed]> (files s)) (lastSeed s)
               (slog s ++ [SWriteFile filePath fileSeed]))
  else (SThrow (WriteError filePath), s).

(** The body of the loop of [runLessonSeed]. *)
Definition seed_step (cmdOrFile : seed_item) : SM unit :=
  match cmdOrFile with
  | SeedCommand c =>
      '(stdout, stderr) ← runCommand c ".";
      if truthy stdout || truthy stderr then semit (SLogDebug [stdout; stderr]) else mret tt
  | SeedFile filePath fileSeed =>
      semit (SUnwatch filePath);;
      runSeed fileSeed filePath;;
      semit (SWatch filePath)
  end.

(** [runLessonSeed] *)
Definition runLessonSeed (seed : list seed_item) (currentLesson : Z) : SM unit :=
  stry_catch (sfor_each seed seed_step)
    (fun e => semit (SLogErrorLesson "Failed to run seed for lesson: " currentLesson);;
              sthrow (WrappedError e)).

(** [setState({ lastSeed: { projectId, lessonNumber } })] *)
Definition set_lastSeed (projectId lessonNumber : Z) : SM unit := fun s =>
  (SOk tt, mkSSt (files s) (Some (projectId, lessonNumber)) (slog s)).

(** [seedLesson(ws, projectId)] *)
Definition seedLesson (projectId : Z) : SM unit :=
  id ← (match getProject projectId with Some id => mret id | None => sthrow SeedTypeError end);
  currentLesson ← (match projects id with Some n => mret n | None => sthrow SeedTypeError end);
  stry_catch
    (seed ← (match getLesson projectId currentLesson with
             | Some seed => mret seed
             | None => sthrow LessonError
             end);
     runLessonSeed seed currentLesson;;
     set_lastSeed projectId currentLesson)
    (fun e => semit (SUpdateError e);; semit (SLogErrorExc e)).

End Seeding.

(** ** Specification vocabulary *)

(** [st] with events appended to its trace. *)
Definition app_trace (s : st) (evs : list event) : st :=
  mkSt (testsState s) (WORKER_POOL s) (trace s ++ evs) (fresh s).

(** The trace a hook call site leaves: nothing when the hook is absent,
    the two debug lines when it ran, or the start line followed by the
    logged failure when it threw. *)
Inductive hook_logged (name : string) : option tester -> list event -> Prop :=
| hook_absent : hook_logged name None []
| hook_ran h :
    hook_logged name (Some h)
      [LogDebug ("Starting: --" ++ name ++ "-- hook")%string; LogDebug ("Finished: --" ++ name ++ "-- hook")%string]
| hook_failed h e :
    hook_logged name (Some h)
      [LogDebug ("Starting: --" ++ name ++ "-- hook")%string;
       LogError ("--" ++ name ++ "-- hook failed to run:")%string; LogException e].

(** A test state after its cancellation: not passed, not loading. *)
Definition cancelled (x : test_state) : test_state :=
  mkTestState false (testText x) (testId x) false.

Definition cancel_if_loading (x : test_state) : test_state :=
  if isLoading x then cancelled x else x.

(** The calls of [checkTestsCallback] that decide lesson progression. *)
Definition is_progression_event (e : event) : bool :=
  match e with
  | Plugin OnLessonPassed | Plugin OnLessonFailed | Plugin OnProjectFinished
  | ResetBottomPanel | HandleProjectFinish | SetProjectConfig _ _ | RunLesson _
  | UpdateHints _ => true
  | _ => false
  end.

(** The events of dispatching tests to workers. *)
Definition is_dispatch_event (e : event) : bool :=
  match e with
  | UpdateTest _ | CreateWorker _ _ _ | PostMessage _ _ => true
  | _ => false
  end.

Definition is_after_all_start (e : event) : bool :=
  match e with
  | LogDebug s => String.eqb s "Starting: --after-all-- hook"
  | _ => false
  end.

Definition is_tests_end (e : event) : bool :=
  match e with
  | Plugin (OnTestsEnd _) => true
  | _ => false
  end.

Definition count_events (f : event -> bool) (l : list event) : nat :=
  List.length (List.filter f l).

Definition is_worker_creation (e : event) : bool :=
  match e with
  | CreateWorker _ _ _ => true
  | _ => false
  end.

Definition is_console_event (e : event) : bool :=
  match e with
  | UpdateConsole _ => true
  | _ => false
  end.

Definition is_test_error_log (e : event) : bool :=
  match e with
  | LogTestError _ _ => true
  | _ => false
  end.

(** The content the last [{ filePath, fileSeed }] entry of a seed for
    [path] writes, if any. *)
Fixpoint last_seed_for (path : string) (seed : list seed_item) : option string :=
  match seed with
  | [] => None
  | it :: seed' =>
      match last_seed_for path seed' with
      | Some c => Some c
      | None =>
          match it with
          | SeedFile q c => if String.eqb q path then Some c else None
          | SeedCommand _ => None
          end
      end
  end.

(** An element of a seed that runs without an exception: its command
    resolves, or its file is writable. *)
Definition seed_item_runs (execute : string -> option string -> option (string * string))
    (writable : string -> bool) (it : seed_item) : Prop :=
  match it with
  | SeedCommand c => is_Some (execute c (Some "."))
  | SeedFile filePath _ => writable filePath = true
  end.

(** A log file made of the given lines, each terminated by a newline. *)
Fixpoint lines_text (ls : list string) : string :=
  match ls with
  | [] => ""
  | l :: ls' => (l ++ String newline (lines_text ls'))%string
  end.

(** ** Monad lemmas *)

Lemma bind_Ok {A B} (m : M A) (k : A -> M B) s a s' :
  m s = (Ok a, s') -> (m ≫= k) s = k a s'.
Proof. intros H. unfold mbind, M_bind. by rewrite H. Qed.

Lemma bind_Throw {A B} (m : M A) (k : A -> M B) s e s' :
  m s = (Throw e, s') -> (m ≫= k) s = (Throw e, s').
Proof. intros H. unfold mbind, M_bind. by rewrite H. Qed.

Lemma app_trace_app s evs1 evs2 :
  app_trace (app_trace s evs1) evs2 = app_trace s (evs1 ++ evs2).
Proof. unfold app_trace; simpl. by rewrite app_assoc. Qed.

Lemma app_trace_nil s : app_trace s [] = s.
Proof. destruct s; unfold app_trace; simpl. by rewrite app_nil_r. Qed.

Lemma emit_app_trace e s : emit e s = (Ok tt, app_trace s [e]).
Proof. reflexivity. Qed.

Section Proofs.

Variable node_eval : string -> bool.
Variable runPython : string -> bool.
Variable t : string -> option string.

Lemma hook_block_spec name h :
  exists evs, hook_logged name h evs /\
    forall s, hook_block node_eval runPython name h s = (Ok tt, app_trace s evs).
Proof.
  destruct h as [hk|].
  - unfold hook_block, try_catch, exec_hook.
    destruct (String.eqb (runner hk) "Node"); [destruct (node_eval (code hk))|];
      [| |destruct (String.eqb (runner hk) "Python"); [destruct (runPython (code hk))|]];
      (eexists; split; [constructor|]); intros s;
      unfold mbind, M_bind, mret, M_ret, throw, emit; simpl;
      unfold app_trace; simpl; by rewrite <- ?app_assoc.
  - exists []. split; [constructor|]. intros s. simpl. by rewrite app_trace_nil.
Qed.

(** What one call of [checkTestsCallback] does, in terms of the
    [testsState] it reads. *)
Lemma checkTests_spec E :
  exists hk, hook_logged "after-all" (env_afterAll E) hk /\
  forall s,
  checkTestsCallback node_eval runPython E s =
    (Ok tt, mkSt (testsState s) (if forallb (fun x => negb (isLoading x)) (testsState s) then [] else WORKER_POOL s)
       (trace s ++
        (if forallb passed (testsState s) then
           [Plugin OnLessonPassed; ResetBottomPanel] ++
           (if isIntegrated (env_project E) || Z.eqb (env_lessonNumber E) (numberOfLessons (env_project E) - 1) then
              [Plugin OnProjectFinished; SetProjectConfig (dashedName (env_project E)) CompletedDate;
               HandleProjectFinish]
            else [SetProjectConfig (dashedName (env_project E)) (CurrentLesson (env_lessonNumber E + 1)); RunLesson (dashedName (env_project E))])
         else [Plugin OnLessonFailed; UpdateHints (env_hints E)]) ++
        (if forallb (fun x => negb (isLoading x)) (testsState s) then hk ++ [Plugin (OnTestsEnd (testsState s))] else []))
       (fresh s)).
Proof.
  destruct (hook_block_spec "after-all" (env_afterAll E)) as [hk [Hhk Hrun]].
  exists hk. split; [exact Hhk|]. intros s.
  unfold checkTestsCallback, mbind, M_bind, mret, M_ret, get_tests, emit, put_pool.
  destruct s as [ts pool tr fr]; simpl.
  destruct (forallb passed ts);
    [destruct (isIntegrated (env_project E) || Z.eqb (env_lessonNumber E) _)|];
    simpl; destruct (forallb (fun x => negb (isLoading x)) ts); simpl;
    try rewrite Hrun; unfold app_trace; simpl;
    by rewrite <- ?app_assoc, ?app_nil_r.
Qed.

Lemma forallb_settled ts :
  Forall (fun x => isLoading x = false) ts <-> forallb (fun x => negb (isLoading x)) ts = true.
Proof.
  rewrite List.Forall_forall, forallb_forall.
  split; intros H x Hx; specialize (H x Hx); destruct (isLoading x); naive_solver.
Qed.

Lemma forallb_passed ts :
  Forall (fun x => passed x = true) ts <-> forallb passed ts = true.
Proof. rewrite List.Forall_forall, forallb_forall. reflexivity. Qed.

Lemma hook_logged_quiet name h hk :
  hook_logged name h hk -> Forall (fun e => is_progression_event e = false) hk.
Proof. inversion 1; repeat constructor. Qed.

(** C3: When every test passed, [checkTestsCallback] reports the lesson as
    passed and clears the panel; then, for an integrated project or the
    last lesson ([lessonNumber = numberOfLessons - 1]) it reports the
    project finished and persists a completion date, and otherwise it
    persists [currentLesson = lessonNumber + 1] and runs the next lesson;
    nothing after that decides progression. *)
Theorem checkTestsCallback_all_passed E s :
  Forall (fun x => passed x = true) (testsState s) ->
  let p := env_project E in
  let n := env_lessonNumber E in
  exists rest,
    trace (snd (checkTestsCallback node_eval runPython E s)) =
      trace s ++ [Plugin OnLessonPassed; ResetBottomPanel] ++
      (if isIntegrated p || Z.eqb n (numberOfLessons p - 1) then
         [Plugin OnProjectFinished; SetProjectConfig (dashedName p) CompletedDate;
          HandleProjectFinish]
       else [SetProjectConfig (dashedName p) (CurrentLesson (n + 1)); RunLesson (dashedName p)])
      ++ rest
    /\ Forall (fun e => is_progression_event e = false) rest.
Proof.
  intros Hp. apply forallb_passed in Hp. cbv zeta.
  destruct (checkTests_spec E) as [hk [Hhk Hrun]].
  rewrite Hrun; simpl. rewrite Hp.
  exists (if forallb (fun x => negb (isLoading x)) (testsState s)
          then hk ++ [Plugin (OnTestsEnd (testsState s))] else []).
  split.
  - by rewrite <- ?app_assoc.
  - destruct (forallb (fun x => negb (isLoading x)) (testsState s)); [|constructor].
    apply Forall_app; split; [by eapply hook_logged_quiet|repeat constructor].
Qed.

(** C1: [checkTestsCallback] keeps no record of an earlier teardown: called
    twice on the same settled [testsState], the second call repeats the
    same progression decision and again runs [afterAll] (when present)
    and the tests-end notification. *)
Theorem checkTestsCallback_settled_repeats E s :
  Forall (fun x => isLoading x = false) (testsState s) ->
  let s1 := snd (checkTestsCallback node_eval runPython E s) in
  let s2 := snd (checkTestsCallback node_eval runPython E s1) in
  exists evs,
    trace s1 = trace s ++ evs /\ trace s2 = trace s1 ++ evs /\
    testsState s2 = testsState s /\
    count_events is_tests_end evs = 1 /\
    count_events is_after_all_start evs = (if env_afterAll E then 1 else 0).
Proof.
  intros Hl. apply forallb_settled in Hl. cbv zeta.
  destruct (checkTests_spec E) as [hk [Hhk Hrun]].
  rewrite Hrun; simpl. rewrite Hrun; simpl. rewrite Hl.
  eexists; split; [reflexivity|]; split; [reflexivity|]; split; [reflexivity|].
  unfold count_events.
  destruct (forallb passed _);
    [destruct (isIntegrated (env_project E) || Z.eqb (env_lessonNumber E) _)|];
    destruct Hhk; unfold count_events; simpl; rewrite ?filter_app; auto.
Qed.

(** C7: At the terminal aggregation [checkTestsCallback] runs [afterAll],
    notifies the end of the tests and then empties the whole process-wide
    [WORKER_POOL], whichever run its workers belong to; when some test is
    still loading it leaves the pool as it is. *)
Theorem checkTestsCallback_pool E s :
  let s' := snd (checkTestsCallback node_eval runPython E s) in
  WORKER_POOL s' =
    (if forallb (fun x => negb (isLoading x)) (testsState s) then [] else WORKER_POOL s) /\
  (forallb (fun x => negb (isLoading x)) (testsState s) = true ->
   exists evs hk, hook_logged "after-all" (env_afterAll E) hk /\
     trace s' = trace s ++ evs ++ hk ++ [Plugin (OnTestsEnd (testsState s))]).
Proof.
  cbv zeta. destruct (checkTests_spec E) as [hk [Hhk Hrun]].
  rewrite Hrun; simpl. split; [reflexivity|].
  intros Hl. rewrite Hl. eexists _, hk. split; [exact Hhk|]. reflexivity.
Qed.

Lemma get_test_Some j x s :
  testsState s !! j = Some x -> get_test j s = (Ok x, s).
Proof. intros H. unfold get_test. by rewrite H. Qed.

Lemma cancel_test_spec j x s :
  testsState s !! j = Some x ->
  cancel_test j s =
    (Ok tt, mkSt (<[j := cancelled x]> (testsState s)) (WORKER_POOL s)
              (trace s ++ [UpdateConsole (ConsoleTestError (cancelled x) (ErrText "Tests cancelled."))])
              (fresh s)).
Proof.
  intros H. pose proof (lookup_lt_Some _ _ _ H) as Hlt.
  destruct s as [ts pool tr fr]; simpl in *.
  unfold cancel_test, modify_test, get_test, get_tests, put_tests, emit, mbind, M_bind; simpl.
  rewrite H; simpl.
  rewrite list_lookup_insert_eq by exact Hlt; simpl.
  rewrite list_lookup_insert_eq by (rewrite length_insert; exact Hlt); simpl.
  rewrite list_insert_insert_eq. reflexivity.
Qed.

Lemma cancel_if_loading_cancelled x : cancel_if_loading (cancelled x) = cancelled x.
Proof. reflexivity. Qed.

Lemma cancel_loop_spec js : forall s,
  Forall (fun j => j < length (testsState s)) js ->
  exists ts' evs,
    for_each js cancel_loading s = (Ok tt, mkSt ts' (WORKER_POOL s) (trace s ++ evs) (fresh s)) /\
    length ts' = length (testsState s) /\
    (forall j, ts' !! j = if bool_decide (j ∈ js) then cancel_if_loading <$> testsState s !! j
                          else testsState s !! j) /\
    (forall j x, j ∈ js -> testsState s !! j = Some x -> isLoading x = true ->
       In (UpdateConsole (ConsoleTestError (cancelled x) (ErrText "Tests cancelled."))) evs).
Proof.
  induction js as [|j js IH]; intros s Hjs.
  - exists (testsState s), []. destruct s; simpl. rewrite app_nil_r.
    split; [reflexivity|]. split; [reflexivity|]. split.
    + intros j. try (rewrite bool_decide_false by set_solver). reflexivity.
    + intros j x Hj. set_solver.
  - inversion Hjs as [|? ? Hj Hjs']; subst.
    destruct (lookup_lt_is_Some_2 _ _ Hj) as [x Hx].
    destruct (isLoading x) eqn:Hload.
    + pose (s1 := mkSt (<[j := cancelled x]> (testsState s)) (WORKER_POOL s)
              (trace s ++ [UpdateConsole (ConsoleTestError (cancelled x) (ErrText "Tests cancelled."))])
              (fresh s)).
      destruct (IH s1) as [ts' [evs [Hrun [Hlen [Hlk Hin]]]]].
      { simpl. rewrite length_insert. exact Hjs'. }
      exists ts', (UpdateConsole (ConsoleTestError (cancelled x) (ErrText "Tests cancelled.")) :: evs).
      simpl for_each.
      rewrite (bind_Ok _ _ s tt s1).
      2:{ unfold cancel_loading. rewrite (bind_Ok _ _ s x s) by (by apply get_test_Some).
          rewrite Hload. by apply cancel_test_spec. }
      rewrite Hrun. simpl. rewrite <- app_assoc. simpl.
      split; [reflexivity|]. split; [by rewrite Hlen; simpl; rewrite length_insert|]. split.
      * intros k. rewrite Hlk. simpl. destruct (decide (k = j)) as [->|Hne].
        -- rewrite list_lookup_insert_eq by exact Hj. rewrite Hx.
           rewrite (bool_decide_true (j ∈ j :: js)) by set_solver.
           case_bool_decide; simpl; unfold cancel_if_loading; by rewrite ?Hload.
        -- rewrite list_lookup_insert_ne by congruence.
           assert (bool_decide (k ∈ j :: js) = bool_decide (k ∈ js)) as ->.
           { apply bool_decide_ext. set_solver. }
           reflexivity.
      * intros k y Hk Hy Hly. destruct (decide (k = j)) as [->|Hne].
        -- rewrite Hx in Hy. injection Hy as <-. left. reflexivity.
        -- right. apply (Hin k y); [set_solver| |exact Hly].
           simpl. rewrite list_lookup_insert_ne by congruence. exact Hy.
    + destruct (IH s) as [ts' [evs [Hrun [Hlen [Hlk Hin]]]]]; [exact Hjs'|].
      exists ts', evs. simpl for_each.
      rewrite (bind_Ok _ _ s tt s).
      2:{ unfold cancel_loading. rewrite (bind_Ok _ _ s x s) by (by apply get_test_Some).
          rewrite Hload. reflexivity. }
      rewrite Hrun. split; [reflexivity|]. split; [exact Hlen|]. split.
      * intros k. rewrite Hlk. destruct (decide (k = j)) as [->|Hne].
        -- rewrite Hx, (bool_decide_true (j ∈ j :: js)) by set_solver.
           case_bool_decide; simpl; unfold cancel_if_loading; by rewrite ?Hload.
        -- assert (bool_decide (k ∈ j :: js) = bool_decide (k ∈ js)) as ->.
           { apply bool_decide_ext. set_solver. }
           reflexivity.
      * intros k y Hk Hy Hly. destruct (decide (k = j)) as [->|Hne].
        -- rewrite Hx in Hy. injection Hy as <-. congruence.
        -- apply (Hin k y); [set_solver|exact Hy|exact Hly].
Qed.

Lemma seq_in_range n : Forall (fun j => j < n) (seq 0 n).
Proof. apply List.Forall_forall. intros j Hj. apply in_seq in Hj. lia. Qed.

(** The blocking branch of the cancellation: the state before [afterEach]. *)
Lemma cancel_blocking_spec s :
  exists ts' evs,
    (ts ← get_tests; for_each (seq 0 (length ts)) cancel_loading) s
      = (Ok tt, mkSt ts' (WORKER_POOL s) (trace s ++ evs) (fresh s)) /\
    length ts' = length (testsState s) /\
    (forall j, ts' !! j = cancel_if_loading <$> testsState s !! j) /\
    (forall j x, testsState s !! j = Some x -> isLoading x = true ->
       In (UpdateConsole (ConsoleTestError (cancelled x) (ErrText "Tests cancelled."))) evs).
Proof.
  destruct (cancel_loop_spec (seq 0 (length (testsState s))) s) as [ts' [evs [Hrun [Hlen [Hlk Hin]]]]].
  { apply seq_in_range. }
  exists ts', evs. rewrite (bind_Ok _ _ s (testsState s) s) by reflexivity.
  split; [exact Hrun|]. split; [exact Hlen|]. split.
  - intros j. rewrite Hlk. case_bool_decide as Hj; [reflexivity|].
    destruct (testsState s !! j) eqn:E; [|reflexivity].
    exfalso. apply Hj. apply elem_of_seq. apply lookup_lt_Some in E. lia.
  - intros j x Hx Hl. apply (Hin j x); [|exact Hx|exact Hl].
    apply elem_of_seq. apply lookup_lt_Some in Hx. lia.
Qed.

(** C4: In blocking mode ([i] undefined), an exit with code 1 marks every test
    that is still loading as not passed and not loading and publishes a
    ['Tests cancelled.'] console entry for it; a test that had settled
    keeps its state. *)
Theorem handleWorkerExit_blocking_cancel E s :
  let s' := snd (handleWorkerExit node_eval runPython E 1 None s) in
  length (testsState s') = length (testsState s) /\
  forall j x, testsState s !! j = Some x ->
    (isLoading x = true ->
       testsState s' !! j = Some (mkTestState false (testText x) (testId x) false) /\
       In (UpdateConsole (ConsoleTestError (mkTestState false (testText x) (testId x) false)
                            (ErrText "Tests cancelled."))) (trace s')) /\
    (isLoading x = false -> testsState s' !! j = Some x).
Proof.
  cbv zeta.
  destruct (hook_block_spec "after-each" (env_afterEach E)) as [hk [Hhk Hhook]].
  destruct (checkTests_spec E) as [ck [Hck Hcheck]].
  destruct (cancel_blocking_spec s) as [ts' [evs [Hrun [Hlen [Hlk Hin]]]]].
  unfold handleWorkerExit. rewrite Z.eqb_refl.
  rewrite (bind_Ok _ _ s tt
             (app_trace (mkSt ts' (WORKER_POOL s) (trace s ++ evs) (fresh s)) [UpdateTests ts'])).
  2:{ rewrite (bind_Ok _ _ s tt _ Hrun). reflexivity. }
  rewrite (bind_Ok _ _ _ tt _ (Hhook _)).
  rewrite Hcheck. simpl. split; [exact Hlen|].
  intros j x Hx. rewrite Hlk, Hx. simpl. unfold cancel_if_loading. split.
  - intros Hl. rewrite Hl. split; [reflexivity|].
    pose proof (Hin j x Hx Hl) as HI. rewrite !in_app_iff. tauto.
  - intros Hl. by rewrite Hl.
Qed.

(** C5: In parallel mode, an exit with code 1 of the worker of test [i] marks
    test [i] as not passed and not loading and publishes a
    ['Tests cancelled.'] console entry for it; every other test keeps its
    state. *)
Theorem handleWorkerExit_parallel_cancel E i x s :
  testsState s !! i = Some x ->
  let s' := snd (handleWorkerExit node_eval runPython E 1 (Some i) s) in
  testsState s' !! i = Some (mkTestState false (testText x) (testId x) false) /\
  (forall j, j <> i -> testsState s' !! j = testsState s !! j) /\
  In (UpdateConsole (ConsoleTestError (mkTestState false (testText x) (testId x) false)
                       (ErrText "Tests cancelled."))) (trace s').
Proof.
  intros Hx. cbv zeta.
  destruct (hook_block_spec "after-each" (env_afterEach E)) as [hk [Hhk Hhook]].
  destruct (checkTests_spec E) as [ck [Hck Hcheck]].
  unfold handleWorkerExit. rewrite Z.eqb_refl.
  rewrite (bind_Ok _ _ s tt
             (app_trace (mkSt (<[i := cancelled x]> (testsState s)) (WORKER_POOL s)
                (trace s ++ [UpdateConsole (ConsoleTestError (cancelled x) (ErrText "Tests cancelled."))])
                (fresh s)) [UpdateTests (<[i := cancelled x]> (testsState s))])).
  2:{ rewrite (bind_Ok _ _ s tt _ (cancel_test_spec _ _ _ Hx)). reflexivity. }
  rewrite (bind_Ok _ _ _ tt _ (Hhook _)).
  rewrite Hcheck. simpl. split; [|split].
  - apply list_lookup_insert_eq. by eapply lookup_lt_Some.
  - intros j Hj. by apply list_lookup_insert_ne.
  - rewrite !in_app_iff. simpl. tauto.
Qed.

(** C6: Every exit of a worker runs the [afterEach] hook (when present) and
    then the aggregation check, on the state the hook left: a failure of
    the hook is logged and the check still runs.  (The hypothesis holds for
    every listener [runTests] registers: the test index of a worker is in
    range.) *)
Theorem handleWorkerExit_afterEach_then_check E exitCode i s :
  (forall j, i = Some j -> exitCode = 1%Z -> j < length (testsState s)) ->
  exists s1 hk,
    hook_logged "after-each" (env_afterEach E) hk /\
    WORKER_POOL s1 = WORKER_POOL s /\
    (exists pre, trace s1 = trace s ++ pre) /\
    handleWorkerExit node_eval runPython E exitCode i s
      = checkTestsCallback node_eval runPython E (app_trace s1 hk).
Proof.
  intros Hi.
  destruct (hook_block_spec "after-each" (env_afterEach E)) as [hk [Hhk Hhook]].
  unfold handleWorkerExit.
  destruct (Z.eqb exitCode 1) eqn:Hc.
  - apply Z.eqb_eq in Hc. destruct i as [j|].
    + destruct (lookup_lt_is_Some_2 (testsState s) j) as [x Hx]; [by apply Hi|].
      eexists _, hk. split; [exact Hhk|]. split; [|split].
      3:{ erewrite (bind_Ok _ _ s tt).
          2:{ rewrite (bind_Ok _ _ s tt _ (cancel_test_spec _ _ _ Hx)). reflexivity. }
          rewrite (bind_Ok _ _ _ tt _ (Hhook _)). reflexivity. }
      * reflexivity.
      * simpl. eexists. by rewrite <- app_assoc.
    + destruct (cancel_blocking_spec s) as [ts' [evs [Hrun _]]].
      eexists _, hk. split; [exact Hhk|]. split; [|split].
      3:{ erewrite (bind_Ok _ _ s tt).
          2:{ rewrite (bind_Ok _ _ s tt _ Hrun). reflexivity. }
          rewrite (bind_Ok _ _ _ tt _ (Hhook _)). reflexivity. }
      * reflexivity.
      * simpl. eexists. by rewrite <- app_assoc.
  - exists s, hk. split; [exact Hhk|]. split; [reflexivity|]. split.
    + exists []. by rewrite app_nil_r.
    + rewrite (bind_Ok _ _ s tt s) by reflexivity.
      rewrite (bind_Ok _ _ _ tt _ (Hhook _)). reflexivity.
Qed.

(** C9: A worker result carrying an error with a non-empty message settles its
    test with the reported [passed] value and publishes the error with its
    message localised: the translation when [t] returns a non-empty one,
    the original message when [t] returns [undefined] or an empty string. *)
Theorem workerMessage_localises_error E m e x s :
  testsState s !! msg_testId m = Some x ->
  msg_error m = Some e ->
  err_message e <> "" ->
  let s' := snd (workerMessage node_eval runPython t E m s) in
  let x' := mkTestState (msg_passed m) (testText x) (testId x) false in
  testsState s' !! msg_testId m = Some x' /\
  exists msg',
    In (UpdateConsole (ConsoleTestError x' (ErrObject (mkWorkerError (err_type e) msg'))))
       (trace s') /\
    (forall tr, t (err_message e) = Some tr -> tr <> "" -> msg' = tr) /\
    (t (err_message e) = None \/ t (err_message e) = Some "" -> msg' = err_message e).
Proof.
  intros Hx He Hm. cbv zeta.
  destruct (checkTests_spec E) as [ck [Hck Hcheck]].
  pose proof (lookup_lt_Some _ _ _ Hx) as Hlt.
  apply String.eqb_neq in Hm.
  destruct s as [ts pool tr fr]; simpl in *.
  unfold workerMessage, modify_test, get_test, get_tests, put_tests, emit, mbind, M_bind,
    mret, M_ret; simpl.
  rewrite Hx; simpl.
  rewrite list_lookup_insert_eq by exact Hlt; simpl.
  rewrite He, Hm; simpl. rewrite list_insert_insert_eq.
  destruct (String.eqb (err_type e) "AssertionError"); simpl;
    repeat (rewrite list_lookup_insert_eq by exact Hlt; simpl);
    rewrite Hcheck; simpl.
  all: split; [by apply list_lookup_insert_eq|].
  all: eexists; split; [rewrite !in_app_iff; simpl; tauto|].
  all: unfold js_or_string; split.
  all: try (intros tr' Ht Hne; rewrite Ht; apply String.eqb_neq in Hne; by rewrite Hne).
  all: intros [Ht|Ht]; by rewrite Ht.
Qed.

(** C10: A lesson without hooks and without tests: resolving the first runner
    reads [.runner] of [undefined]; the [TypeError] is caught and logged by
    the top-level handler and [runTests] returns normally, without creating
    a worker, publishing test states or notifying plugins. *)
Theorem runTests_empty_lesson p hs s :
  runTests node_eval runPython p (mkLesson None None None None hs []) s =
    (Ok [], mkSt [] (WORKER_POOL s)
              (trace s ++ [LogError "Test Error: "; LogException TypeError]) (fresh s)).
Proof.
  destruct s as [ts pool tr fr]. unfold runTests. cbv zeta.
  unfold mbind, M_bind, try_catch, put_tests, throw, emit, mret, M_ret; simpl.
  by rewrite <- app_assoc.
Qed.

Lemma check_runner_loop_mismatch r L s x :
  In (Some x) L -> runner x <> r ->
  exists found, found <> r /\ for_each L (check_runner r) s = (Throw (RunnerMismatch found r), s).
Proof.
  intros Hin Hne. induction L as [|o L IH]; [destruct Hin|].
  simpl for_each. destruct o as [y|].
  - destruct (String.eqb (runner y) r) eqn:Hy.
    + apply String.eqb_eq in Hy.
      destruct Hin as [Heq|Hin]; [injection Heq as ->; congruence|].
      destruct (IH Hin) as [found [Hf Hrun]]. exists found. split; [exact Hf|].
      rewrite (bind_Ok _ _ s tt s); [exact Hrun|]. unfold check_runner. by rewrite Hy, String.eqb_refl.
    + apply String.eqb_neq in Hy. exists (runner y). split; [exact Hy|].
      apply bind_Throw. unfold check_runner. apply String.eqb_neq in Hy. by rewrite Hy.
  - destruct Hin as [Heq|Hin]; [discriminate|].
    destruct (IH Hin) as [found [Hf Hrun]]. exists found. split; [exact Hf|].
    rewrite (bind_Ok _ _ s tt s); [exact Hrun|reflexivity].
Qed.

Lemma check_runner_loop_ok r L s :
  Forall (fun o => forall x, o = Some x -> runner x = r) L ->
  for_each L (check_runner r) s = (Ok tt, s).
Proof.
  induction 1 as [|o L Ho HL IH]; [reflexivity|].
  simpl for_each. rewrite (bind_Ok _ _ s tt s); [exact IH|].
  destruct o as [y|]; [|reflexivity].
  unfold check_runner. rewrite (Ho y eq_refl), String.eqb_refl. reflexivity.
Qed.

(** C2: When some hook or test has a runner different from the first resolved
    one, [runTests] throws the runner-mismatch error, which the top-level
    handler logs: no [beforeAll], no state published, no plugin event, no
    worker created and the pool left as it was. *)
Theorem runTests_runner_mismatch p l s t0 x :
  hd_error (List.filter non_null (lesson_testers l)) = Some (Some t0) ->
  In (Some x) (lesson_testers l) ->
  runner x <> runner t0 ->
  exists found, found <> runner t0 /\
    runTests node_eval runPython p l s =
      (Ok [], mkSt [] (WORKER_POOL s)
                (trace s ++ [LogError "Test Error: "; LogException (RunnerMismatch found (runner t0))])
                (fresh s)).
Proof.
  intros Hhd Hin Hne.
  set (s0 := mkSt [] (WORKER_POOL s) (trace s) (fresh s)).
  destruct (check_runner_loop_mismatch (runner t0) (lesson_testers l) s0 x Hin Hne)
    as [found [Hf Hloop]].
  exists found. split; [exact Hf|].
  unfold runTests. cbv zeta.
  rewrite (bind_Ok _ _ s tt s0) by reflexivity.
  unfold try_catch.
  rewrite (bind_Ok _ _ s0 (runner t0) s0) by (by rewrite Hhd).
  rewrite (bind_Throw _ _ s0 _ s0 Hloop).
  unfold mbind, M_bind, emit, mret, M_ret; simpl. by rewrite <- app_assoc.
Qed.

Lemma dispatch_blocking_step w i x y s :
  testsState s !! i = Some y ->
  dispatch_blocking w i x s =
    (Ok tt, mkSt (<[i := set_loading true y]> (testsState s)) (WORKER_POOL s)
              (trace s ++ [UpdateTest (set_loading true y); PostMessage w i]) (fresh s)).
Proof.
  intros Hy. pose proof (lookup_lt_Some _ _ _ Hy) as Hlt.
  destruct s as [ts pool tr fr]; simpl in *.
  unfold dispatch_blocking, modify_test, get_test, get_tests, put_tests, emit, mbind, M_bind; simpl.
  rewrite Hy; simpl. rewrite list_lookup_insert_eq by exact Hlt; simpl.
  by rewrite <- app_assoc.
Qed.

Lemma dispatch_parallel_step i x y s :
  testsState s !! i = Some y ->
  dispatch_parallel i x s =
    (Ok (fresh s, Some i),
     mkSt (<[i := set_loading true y]> (testsState s)) (WORKER_POOL s ++ [fresh s])
       (trace s ++ [UpdateTest (set_loading true y); CreateWorker (IndexedWorker i) (test_runner x) (fresh s);
                    PostMessage (fresh s) i]) (S (fresh s))).
Proof.
  intros Hy. pose proof (lookup_lt_Some _ _ _ Hy) as Hlt.
  destruct s as [ts pool tr fr]; simpl in *.
  unfold dispatch_parallel, modify_test, get_test, get_tests, put_tests, emit, createWorker,
    push_worker, get_pool, put_pool, mbind, M_bind, mret, M_ret; simpl.
  rewrite Hy; simpl. rewrite list_lookup_insert_eq by exact Hlt; simpl.
  by rewrite <- !app_assoc.
Qed.

Lemma dispatch_blocking_loop w xs : forall k s,
  k + length xs <= length (testsState s) ->
  exists us ts' evs,
    for_each_i k xs (dispatch_blocking w) s =
      (Ok us, mkSt ts' (WORKER_POOL s) (trace s ++ evs) (fresh s)) /\
    Forall (fun e => is_dispatch_event e = true) evs /\
    (forall i, k <= i < k + length xs -> In (PostMessage w i) evs).
Proof.
  induction xs as [|x xs IH]; intros k s Hk.
  - exists [], (testsState s), []. destruct s; simpl. rewrite app_nil_r.
    split; [reflexivity|]. split; [constructor|]. intros i Hi. exfalso. simpl in Hi. lia.
  - simpl in Hk. destruct (lookup_lt_is_Some_2 (testsState s) k) as [y Hy]; [lia|].
    destruct (IH (S k) (mkSt (<[k := set_loading true y]> (testsState s)) (WORKER_POOL s)
              (trace s ++ [UpdateTest (set_loading true y); PostMessage w k]) (fresh s)))
      as [us [ts' [evs [Hrun [Hd Hin]]]]].
    { simpl. rewrite length_insert. lia. }
    exists (tt :: us), ts', ([UpdateTest (set_loading true y); PostMessage w k] ++ evs).
    simpl for_each_i.
    rewrite (bind_Ok _ _ s tt _ (dispatch_blocking_step w k x y s Hy)).
    rewrite (bind_Ok _ _ _ us _ Hrun). simpl. rewrite <- app_assoc.
    split; [reflexivity|]. split.
    + repeat constructor. exact Hd.
    + intros i Hi. destruct (decide (i = k)) as [->|Hne]; [simpl; tauto|].
      right; right. apply Hin. lia.
Qed.

Lemma dispatch_parallel_loop xs : forall k s,
  k + length xs <= length (testsState s) ->
  exists ls st',
    for_each_i k xs dispatch_parallel s = (Ok ls, st') /\
    length ls = length xs /\
    (exists evs, trace st' = trace s ++ evs /\
       Forall (fun e => is_dispatch_event e = true) evs /\
       (forall i, k <= i < k + length xs -> exists w, In (PostMessage w i) evs)).
Proof.
  induction xs as [|x xs IH]; intros k s Hk.
  - exists [], s. split; [reflexivity|]. split; [reflexivity|].
    exists []. rewrite app_nil_r. split; [reflexivity|]. split; [constructor|]. intros i Hi. exfalso. simpl in Hi. lia.
  - simpl in Hk. destruct (lookup_lt_is_Some_2 (testsState s) k) as [y Hy]; [lia|].
    destruct (IH (S k) (mkSt (<[k := set_loading true y]> (testsState s)) (WORKER_POOL s ++ [fresh s])
              (trace s ++ [UpdateTest (set_loading true y); CreateWorker (IndexedWorker k) (test_runner x) (fresh s);
                           PostMessage (fresh s) k]) (S (fresh s))))
      as [ls [st' [Hrun [Hlen [evs [Htr [Hd Hin]]]]]]].
    { simpl. rewrite length_insert. lia. }
    exists ((fresh s, Some k) :: ls), st'.
    simpl for_each_i.
    rewrite (bind_Ok _ _ s _ _ (dispatch_parallel_step k x y s Hy)).
    rewrite (bind_Ok _ _ _ ls _ Hrun).
    split; [reflexivity|]. split; [simpl; by rewrite Hlen|].
    exists ([UpdateTest (set_loading true y); CreateWorker (IndexedWorker k) (test_runner x) (fresh s);
             PostMessage (fresh s) k] ++ evs).
    rewrite Htr. simpl. rewrite <- app_assoc. split; [reflexivity|]. split.
    + repeat constructor. exact Hd.
    + intros i Hi. destruct (decide (i = k)) as [->|Hne].
      * exists (fresh s). simpl. tauto.
      * destruct (Hin i) as [w Hw]; [lia|]. exists w. simpl. tauto.
Qed.

(** C8: With consistent runners, a [beforeAll] hook runs once, before the test
    states are built and published and before any worker is created; if
    it throws, the failure is logged and the run goes on: the initial
    states are published and every test is posted to a worker. *)
Theorem runTests_beforeAll_once p l h s :
  beforeAll l = Some h ->
  Forall (fun o => forall x, o = Some x -> runner x = runner h) (lesson_testers l) ->
  let r := runTests node_eval runPython p l s in
  let init := initial_tests_state p l in
  exists hk rest ls,
    hook_logged "before-all" (Some h) hk /\
    fst r = Ok ls /\
    length ls = (if blockingTests p then 1 else length (tests l)) /\
    trace (snd r) = trace s ++ hk ++
      [Plugin (OnTestsStart init); UpdateTests init; UpdateConsole (ConsoleText "")] ++ rest /\
    Forall (fun e => is_dispatch_event e = true) rest /\
    (forall i, i < length (tests l) -> exists w, In (PostMessage w i) rest).
Proof.
  intros Hb Hc. cbv zeta.
  destruct (hook_block_spec "before-all" (Some h)) as [hk [Hhk Hhook]].
  assert (Hhd : hd_error (List.filter non_null (lesson_testers l)) = Some (Some h)).
  { unfold lesson_testers. rewrite Hb. reflexivity. }
  assert (Hlen : length (initial_tests_state p l) = length (tests l)).
  { unfold initial_tests_state. apply length_imap. }
  destruct s as [ts pool tr fr].
  set (s0 := mkSt [] pool tr fr).
  unfold runTests. cbv zeta.
  rewrite (bind_Ok _ _ _ tt s0) by reflexivity.
  unfold try_catch.
  rewrite (bind_Ok _ _ s0 (runner h) s0) by (by rewrite Hhd).
  rewrite (bind_Ok _ _ s0 tt s0) by (apply check_runner_loop_ok; exact Hc).
  rewrite Hb, (bind_Ok _ _ _ tt _ (Hhook s0)).
  do 5 (rewrite (bind_Ok _ _ _ _ _) by reflexivity).
  destruct (blockingTests p) eqn:Hbt.
  - do 2 (rewrite (bind_Ok _ _ _ _ _) by reflexivity).
    match goal with
    | |- context [@mbind _ _ _ _ ?k (for_each_i 0 (tests l) (dispatch_blocking ?w)) ?s5] =>
        destruct (dispatch_blocking_loop w (tests l) 0 s5) as [us [ts' [evs [Hrun [Hd Hin]]]]]
    end.
    { simpl. lia. }
    rewrite (bind_Ok _ _ _ _ _ Hrun). simpl.
    exists hk, (CreateWorker BlockingWorker (runner h) fr :: evs), [(fr, None)].
    split; [exact Hhk|]. split; [reflexivity|]. split; [reflexivity|]. split.
    + by rewrite <- !app_assoc.
    + split; [constructor; [reflexivity|exact Hd]|].
      intros i Hi. exists fr. right. apply Hin. lia.
  - match goal with
    | |- context [for_each_i 0 (tests l) dispatch_parallel ?s5] =>
        destruct (dispatch_parallel_loop (tests l) 0 s5) as [ls [st' [Hrun [Hls [evs [Htr [Hd Hin]]]]]]]
    end.
    { simpl. lia. }
    rewrite Hrun. simpl.
    exists hk, evs, ls.
    split; [exact Hhk|]. split; [reflexivity|]. split; [exact Hls|]. split.
    + rewrite Htr. simpl. by rewrite <- !app_assoc.
    + split; [exact Hd|]. intros i Hi. apply Hin. lia.
Qed.

End Proofs.

Section MoreProofs.

Variable node_eval : string -> bool.
Variable runPython : string -> bool.
Variable t : string -> option string.

Lemma index_of_first h l1 l2 :
  h ∉ l1 -> index_of h (l1 ++ h :: l2) = Some (length l1).
Proof.
  induction l1 as [|x l1 IH]; intros Hn; simpl.
  - by rewrite Nat.eqb_refl.
  - apply not_elem_of_cons in Hn as [Hx Hn].
    destruct (Nat.eqb_spec x h); [congruence|]. by rewrite IH.
Qed.

Lemma index_of_absent h l : h ∉ l -> index_of h l = None.
Proof.
  induction l as [|x l IH]; intros Hn; simpl; [reflexivity|].
  apply not_elem_of_cons in Hn as [Hx Hn].
  destruct (Nat.eqb_spec x h); [congruence|]. by rewrite IH.
Qed.

(** X1: [removeWorkerFromPool] removes exactly the first occurrence of the
    worker from [WORKER_POOL], keeping the order of the others, and
    touches nothing else. *)
Theorem removeWorkerFromPool_first h l1 l2 s :
  WORKER_POOL s = l1 ++ h :: l2 -> h ∉ l1 ->
  removeWorkerFromPool h s = (Ok tt, mkSt (testsState s) (l1 ++ l2) (trace s) (fresh s)).
Proof.
  intros Hp Hn. unfold removeWorkerFromPool, get_pool, put_pool, mbind, M_bind; simpl.
  rewrite Hp, (index_of_first h l1 l2 Hn), take_app_length.
  assert (drop (S (length l1)) (l1 ++ h :: l2) = l2) as -> by (clear Hp Hn; induction l1; simpl; auto).
  reflexivity.
Qed.

(** X2: [removeWorkerFromPool] of a worker that is not in [WORKER_POOL]
    ([indexOf] is [-1]) changes nothing. *)
Theorem removeWorkerFromPool_absent h s :
  h ∉ WORKER_POOL s -> removeWorkerFromPool h s = (Ok tt, s).
Proof.
  intros Hn. unfold removeWorkerFromPool, get_pool, mbind, M_bind; simpl.
  by rewrite index_of_absent.
Qed.

(** X3: A worker message whose [testId] has no entry in [testsState]
    throws a [TypeError] at its first write, before any state change,
    update or aggregation check. *)
Theorem workerMessage_unknown_test E m s :
  testsState s !! msg_testId m = None ->
  workerMessage node_eval runPython t E m s = (Throw TypeError, s).
Proof.
  intros H. unfold workerMessage. cbv zeta.
  apply bind_Throw. unfold modify_test. apply bind_Throw. unfold get_test. by rewrite H.
Qed.

(** What one worker message does before the aggregation check. *)
Lemma workerMessage_spec E m x s :
  testsState s !! msg_testId m = Some x ->
  let x' := mkTestState (msg_passed m) (testText x) (testId x) false in
  workerMessage node_eval runPython t E m s =
    checkTestsCallback node_eval runPython E
      (mkSt (<[msg_testId m := x']> (testsState s)) (WORKER_POOL s)
         (trace s ++
          (match msg_error m with
           | None => []
           | Some e =>
               (if String.eqb (err_type e) "AssertionError" then []
                else [LogTestError (msg_testId m) e]) ++
               [UpdateConsole (ConsoleTestError x' (ErrObject
                  (if String.eqb (err_message e) "" then e
                   else mkWorkerError (err_type e)
                          (js_or_string (t (err_message e)) (err_message e)))))]
           end) ++ [UpdateTest x'])
         (fresh s)).
Proof.
  intros Hx. cbv zeta. pose proof (lookup_lt_Some _ _ _ Hx) as Hlt.
  destruct s as [ts pool tr fr]; simpl in *.
  unfold workerMessage, modify_test, get_test, get_tests, put_tests, emit, mbind, M_bind,
    mret, M_ret; simpl.
  rewrite Hx; simpl.
  rewrite list_lookup_insert_eq by exact Hlt; simpl.
  rewrite list_insert_insert_eq.
  destruct (msg_error m) as [e|]; simpl;
    [destruct (String.eqb (err_type e) "AssertionError"); simpl|];
    repeat (rewrite list_lookup_insert_eq by exact Hlt; simpl);
    by rewrite <- ?app_assoc.
Qed.

Lemma hook_logged_logs name h hk :
  hook_logged name h hk ->
  Forall (fun e => is_console_event e = false /\ is_test_error_log e = false /\
                   is_worker_creation e = false) hk.
Proof. inversion 1; repeat constructor. Qed.

(** The events of [checkTestsCallback] are neither console entries nor
    test-error logs. *)
Lemma checkTests_quiet E s :
  exists evs,
    trace (snd (checkTestsCallback node_eval runPython E s)) = trace s ++ evs /\
    Forall (fun e => is_console_event e = false /\ is_test_error_log e = false) evs.
Proof.
  destruct (checkTests_spec node_eval runPython E) as [hk [Hhk Hrun]].
  rewrite Hrun. simpl. eexists. split; [reflexivity|].
  pose proof (hook_logged_logs _ _ _ Hhk) as Hq.
  apply Forall_app; split.
  - destruct (forallb passed _); [destruct (_ || _)|]; repeat constructor.
  - destruct (forallb _ _); [|constructor].
    apply Forall_app; split; [|repeat constructor].
    eapply Forall_impl; [exact Hq|]. naive_solver.
Qed.

Lemma checkTests_tests E s :
  testsState (snd (checkTestsCallback node_eval runPython E s)) = testsState s.
Proof. destruct (checkTests_spec node_eval runPython E) as [hk [_ Hrun]]. by rewrite Hrun. Qed.

(** X4: A worker message for an existing test resolves and settles exactly
    that test: [isLoading] becomes false and [passed] the reported value,
    every other entry of [testsState] is unchanged, and the new state of
    the test is published. *)
Theorem workerMessage_settles_own_test E m x s :
  testsState s !! msg_testId m = Some x ->
  let r := workerMessage node_eval runPython t E m s in
  let x' := mkTestState (msg_passed m) (testText x) (testId x) false in
  fst r = Ok tt /\
  testsState (snd r) = <[msg_testId m := x']> (testsState s) /\
  In (UpdateTest x') (trace (snd r)).
Proof.
  intros Hx. cbv zeta. rewrite (workerMessage_spec E m x s Hx).
  destruct (checkTests_spec node_eval runPython E) as [hk [_ Hrun]].
  rewrite Hrun. simpl. split; [reflexivity|]. split; [reflexivity|].
  rewrite !in_app_iff. simpl. tauto.
Qed.

(** X5: A worker message without an [error] publishes no console entry:
    after the updated test state only the aggregation check's events
    follow. *)
Theorem workerMessage_no_error_no_console E m x s :
  testsState s !! msg_testId m = Some x ->
  msg_error m = None ->
  let s' := snd (workerMessage node_eval runPython t E m s) in
  exists rest,
    trace s' = trace s ++ [UpdateTest (mkTestState (msg_passed m) (testText x) (testId x) false)] ++ rest /\
    Forall (fun e => is_console_event e = false) rest.
Proof.
  intros Hx He. cbv zeta. rewrite (workerMessage_spec E m x s Hx), He.
  match goal with |- context [checkTestsCallback _ _ E ?s1] =>
    destruct (checkTests_quiet E s1) as [evs [Htr Hq]] end.
  rewrite Htr. simpl. exists evs. split; [by rewrite <- app_assoc|].
  eapply Forall_impl; [exact Hq|]. naive_solver.
Qed.

(** X6: A worker error is logged as a test error ([logover.error]) exactly
    when its [type] is not ['AssertionError']. *)
Theorem workerMessage_logs_non_assertion_errors E m x e s :
  testsState s !! msg_testId m = Some x ->
  msg_error m = Some e ->
  exists evs,
    trace (snd (workerMessage node_eval runPython t E m s)) = trace s ++ evs /\
    (In (LogTestError (msg_testId m) e) evs <-> err_type e <> "AssertionError").
Proof.
  intros Hx He. rewrite (workerMessage_spec E m x s Hx), He.
  match goal with |- context [checkTestsCallback _ _ E ?s1] =>
    destruct (checkTests_quiet E s1) as [evs [Htr Hq]] end.
  rewrite Htr. simpl. rewrite <- app_assoc. eexists. split; [reflexivity|].
  assert (Hno : ~ In (LogTestError (msg_testId m) e) evs).
  { intros Hin. rewrite List.Forall_forall in Hq. destruct (Hq _ Hin) as [_ Hf]. discriminate. }
  destruct (String.eqb_spec (err_type e) "AssertionError") as [Ha|Ha]; simpl.
  - split; [|tauto]. intros [H|[H|H]]; [discriminate|discriminate|tauto].
  - split; [intros _; exact Ha|]. intros _. left. reflexivity.
Qed.

Lemma forallb_passed_false ts :
  Exists (fun x => passed x = false) ts -> forallb passed ts = false.
Proof.
  induction 1 as [x l Hx|x l _ IH]; simpl; [by rewrite Hx|by rewrite IH, andb_false_r].
Qed.

(** X7: When some test has not passed, [checkTestsCallback] reports the
    lesson as failed and publishes the hints; it neither saves progress
    nor runs another lesson, and it leaves [testsState] unchanged. *)
Theorem checkTestsCallback_some_failed E s :
  Exists (fun x => passed x = false) (testsState s) ->
  let s' := snd (checkTestsCallback node_eval runPython E s) in
  testsState s' = testsState s /\
  exists rest,
    trace s' = trace s ++ [Plugin OnLessonFailed; UpdateHints (env_hints E)] ++ rest /\
    Forall (fun e => is_progression_event e = false) rest.
Proof.
  intros Hf. apply forallb_passed_false in Hf. cbv zeta.
  destruct (checkTests_spec node_eval runPython E) as [hk [Hhk Hrun]].
  rewrite Hrun; simpl. rewrite Hf. split; [reflexivity|].
  eexists. split; [reflexivity|].
  destruct (forallb (fun x => negb (isLoading x)) (testsState s)); [|constructor].
  apply Forall_app; split; [by eapply hook_logged_quiet|repeat constructor].
Qed.

(** X8: A worker exit with a code other than 1 cancels nothing: it runs the
    [afterEach] hook (when present) and the aggregation check on the
    unchanged [testsState], which it leaves as it is. *)
Theorem handleWorkerExit_other_code E exitCode i s :
  exitCode <> 1%Z ->
  exists hk,
    hook_logged "after-each" (env_afterEach E) hk /\
    handleWorkerExit node_eval runPython E exitCode i s
      = checkTestsCallback node_eval runPython E (app_trace s hk) /\
    testsState (snd (handleWorkerExit node_eval runPython E exitCode i s)) = testsState s.
Proof.
  intros Hc. destruct (hook_block_spec node_eval runPython "after-each" (env_afterEach E)) as [hk [Hhk Hhook]].
  assert (Hrun : handleWorkerExit node_eval runPython E exitCode i s
                 = checkTestsCallback node_eval runPython E (app_trace s hk)).
  { unfold handleWorkerExit. apply Z.eqb_neq in Hc. rewrite Hc.
    rewrite (bind_Ok _ _ s tt s) by reflexivity.
    rewrite (bind_Ok _ _ _ tt _ (Hhook _)). reflexivity. }
  exists hk. split; [exact Hhk|]. split; [exact Hrun|].
  rewrite Hrun, checkTests_tests. reflexivity.
Qed.

Lemma dispatch_parallel_loop_state xs : forall k s,
  k + length xs <= length (testsState s) ->
  exists ts' evs,
    for_each_i k xs dispatch_parallel s =
      (Ok (zip (seq (fresh s) (length xs)) (map Some (seq k (length xs)))),
       mkSt ts' (WORKER_POOL s ++ seq (fresh s) (length xs)) (trace s ++ evs)
         (fresh s + length xs)) /\
    (forall j, ts' !! j = if bool_decide (k <= j < k + length xs)
                          then set_loading true <$> testsState s !! j else testsState s !! j) /\
    (forall j x, xs !! j = Some x ->
       In (CreateWorker (IndexedWorker (k + j)) (test_runner x) (fresh s + j)) evs).
Proof.
  induction xs as [|x xs IH]; intros k s Hk.
  - exists (testsState s), []. destruct s; simpl. rewrite !app_nil_r, Nat.add_0_r.
    split; [reflexivity|]. split; [|done].
    intros j. rewrite bool_decide_false by lia. reflexivity.
  - simpl in Hk. destruct (lookup_lt_is_Some_2 (testsState s) k) as [y Hy]; [lia|].
    destruct (IH (S k) (mkSt (<[k := set_loading true y]> (testsState s)) (WORKER_POOL s ++ [fresh s])
              (trace s ++ [UpdateTest (set_loading true y); CreateWorker (IndexedWorker k) (test_runner x) (fresh s);
                           PostMessage (fresh s) k]) (S (fresh s))))
      as [ts' [evs [Hrun [Hlk Hin]]]].
    { simpl. rewrite length_insert. lia. }
    exists ts', ([UpdateTest (set_loading true y); CreateWorker (IndexedWorker k) (test_runner x) (fresh s);
                  PostMessage (fresh s) k] ++ evs).
    simpl for_each_i.
    rewrite (bind_Ok _ _ s _ _ (dispatch_parallel_step k x y s Hy)).
    rewrite (bind_Ok _ _ _ _ _ Hrun). simpl in *.
    rewrite <- !app_assoc, Nat.add_succ_r. simpl. split; [reflexivity|]. split.
    + intros j. rewrite Hlk. destruct (decide (j = k)) as [->|Hne].
      * rewrite bool_decide_false by lia. rewrite bool_decide_true by lia.
        rewrite list_lookup_insert_eq by (by eapply lookup_lt_Some). by rewrite Hy.
      * rewrite list_lookup_insert_ne by congruence.
        do 2 case_bool_decide; try reflexivity; lia.
    + intros [|j] z Hz; simpl in Hz.
      * injection Hz as <-. rewrite !Nat.add_0_r. simpl. tauto.
      * right; right; right. replace (k + S j) with (S k + j) by lia.
        replace (fresh s + S j) with (S (fresh s) + j) by lia. by apply Hin.
Qed.

Lemma dispatch_blocking_loop_state w xs : forall k s,
  k + length xs <= length (testsState s) ->
  exists us ts' evs,
    for_each_i k xs (dispatch_blocking w) s =
      (Ok us, mkSt ts' (WORKER_POOL s) (trace s ++ evs) (fresh s)) /\
    (forall j, ts' !! j = if bool_decide (k <= j < k + length xs)
                          then set_loading true <$> testsState s !! j else testsState s !! j) /\
    Forall (fun e => is_worker_creation e = false) evs /\
    (forall i, k <= i < k + length xs -> In (PostMessage w i) evs).
Proof.
  induction xs as [|x xs IH]; intros k s Hk.
  - exists [], (testsState s), []. destruct s; simpl. rewrite app_nil_r.
    split; [reflexivity|]. split; [|split; [constructor|]].
    + intros j. rewrite bool_decide_false by lia. reflexivity.
    + intros i Hi. lia.
  - simpl in Hk. destruct (lookup_lt_is_Some_2 (testsState s) k) as [y Hy]; [lia|].
    destruct (IH (S k) (mkSt (<[k := set_loading true y]> (testsState s)) (WORKER_POOL s)
              (trace s ++ [UpdateTest (set_loading true y); PostMessage w k]) (fresh s)))
      as [us [ts' [evs [Hrun [Hlk [Hd Hin]]]]]].
    { simpl. rewrite length_insert. lia. }
    exists (tt :: us), ts', ([UpdateTest (set_loading true y); PostMessage w k] ++ evs).
    simpl for_each_i.
    rewrite (bind_Ok _ _ s tt _ (dispatch_blocking_step w k x y s Hy)).
    rewrite (bind_Ok _ _ _ us _ Hrun). simpl in *. rewrite <- app_assoc.
    split; [reflexivity|]. split; [|split].
    + intros j. rewrite Hlk. destruct (decide (j = k)) as [->|Hne].
      * rewrite bool_decide_false by lia. rewrite bool_decide_true by lia.
        rewrite list_lookup_insert_eq by (by eapply lookup_lt_Some). by rewrite Hy.
      * rewrite list_lookup_insert_ne by congruence.
        do 2 case_bool_decide; try reflexivity; lia.
    + repeat constructor. exact Hd.
    + intros i Hi. destruct (decide (i = k)) as [->|Hne]; [simpl; tauto|].
      right; right. apply Hin. lia.
Qed.

(** After the dispatch loop over all tests, every initial test state is
    loading. *)
Lemma all_loading_after_dispatch p l ts' :
  (forall j, ts' !! j = if bool_decide (0 <= j < 0 + length (tests l))
                        then set_loading true <$> initial_tests_state p l !! j
                        else initial_tests_state p l !! j) ->
  ts' = imap (fun i x => mkTestState false (test_text x) i true) (tests l).
Proof.
  intros Hlk. apply list_eq. intros j. rewrite Hlk. unfold initial_tests_state.
  rewrite !list_lookup_imap. case_bool_decide as Hj.
  - by destruct (tests l !! j).
  - rewrite lookup_ge_None_2 by lia. reflexivity.
Qed.

(** X9: In parallel mode, with consistent runners, [runTests] creates one
    worker per test with that test's runner, appends exactly the new
    workers to [WORKER_POOL] in test order, registers each with its test
    index, and leaves every test loading and not passed. *)
Theorem runTests_parallel_dispatch p l s t0 :
  blockingTests p = false ->
  hd_error (List.filter non_null (lesson_testers l)) = Some (Some t0) ->
  Forall (fun o => forall x, o = Some x -> runner x = runner t0) (lesson_testers l) ->
  let n := length (tests l) in
  let r := runTests node_eval runPython p l s in
  fst r = Ok (zip (seq (fresh s) n) (map Some (seq 0 n))) /\
  WORKER_POOL (snd r) = WORKER_POOL s ++ seq (fresh s) n /\
  testsState (snd r) = imap (fun i x => mkTestState false (test_text x) i true) (tests l) /\
  (forall i x, tests l !! i = Some x ->
     In (CreateWorker (IndexedWorker i) (test_runner x) (fresh s + i)) (trace (snd r))).
Proof.
  intros Hbt Hhd Hc. cbv zeta.
  destruct (hook_block_spec node_eval runPython "before-all" (beforeAll l)) as [hk [_ Hhook]].
  assert (Hlen : length (initial_tests_state p l) = length (tests l)).
  { unfold initial_tests_state. apply length_imap. }
  destruct s as [ts pool tr fr].
  set (s0 := mkSt [] pool tr fr).
  unfold runTests. cbv zeta.
  rewrite (bind_Ok _ _ _ tt s0) by reflexivity.
  unfold try_catch.
  rewrite (bind_Ok _ _ s0 (runner t0) s0) by (by rewrite Hhd).
  rewrite (bind_Ok _ _ s0 tt s0) by (apply check_runner_loop_ok; exact Hc).
  rewrite (bind_Ok _ _ _ tt _ (Hhook s0)).
  do 5 (rewrite (bind_Ok _ _ _ _ _) by reflexivity).
  rewrite Hbt.
  match goal with
  | |- context [for_each_i 0 (tests l) dispatch_parallel ?s5] =>
      destruct (dispatch_parallel_loop_state (tests l) 0 s5) as [ts' [evs [Hrun [Hlk Hin]]]]
  end.
  { simpl. lia. }
  rewrite Hrun. simpl. simpl in Hlk.
  split; [reflexivity|]. split; [reflexivity|]. split.
  - by apply (all_loading_after_dispatch p).
  - intros i x Hx. rewrite in_app_iff. right. exact (Hin i x Hx).
Qed.

(** X10: In blocking mode, with consistent runners, [runTests] creates a
    single worker, with the first runner, appends it to [WORKER_POOL],
    posts every test to it and leaves every test loading and not
    passed. *)
Theorem runTests_blocking_dispatch p l s t0 :
  blockingTests p = true ->
  hd_error (List.filter non_null (lesson_testers l)) = Some (Some t0) ->
  Forall (fun o => forall x, o = Some x -> runner x = runner t0) (lesson_testers l) ->
  let r := runTests node_eval runPython p l s in
  fst r = Ok [(fresh s, None)] /\
  WORKER_POOL (snd r) = WORKER_POOL s ++ [fresh s] /\
  testsState (snd r) = imap (fun i x => mkTestState false (test_text x) i true) (tests l) /\
  exists pre post,
    trace (snd r) = trace s ++ pre ++ [CreateWorker BlockingWorker (runner t0) (fresh s)] ++ post /\
    Forall (fun e => is_worker_creation e = false) (pre ++ post) /\
    (forall i, i < length (tests l) -> In (PostMessage (fresh s) i) post).
Proof.
  intros Hbt Hhd Hc. cbv zeta.
  destruct (hook_block_spec node_eval runPython "before-all" (beforeAll l)) as [hk [Hhk Hhook]].
  assert (Hlen : length (initial_tests_state p l) = length (tests l)).
  { unfold initial_tests_state. apply length_imap. }
  destruct s as [ts pool tr fr].
  set (s0 := mkSt [] pool tr fr).
  unfold runTests. cbv zeta.
  rewrite (bind_Ok _ _ _ tt s0) by reflexivity.
  unfold try_catch.
  rewrite (bind_Ok _ _ s0 (runner t0) s0) by (by rewrite Hhd).
  rewrite (bind_Ok _ _ s0 tt s0) by (apply check_runner_loop_ok; exact Hc).
  rewrite (bind_Ok _ _ _ tt _ (Hhook s0)).
  do 5 (rewrite (bind_Ok _ _ _ _ _) by reflexivity).
  rewrite Hbt.
  do 2 (rewrite (bind_Ok _ _ _ _ _) by reflexivity).
  match goal with
  | |- context [@mbind _ _ _ _ ?k (for_each_i 0 (tests l) (dispatch_blocking ?w)) ?s5] =>
      destruct (dispatch_blocking_loop_state w (tests l) 0 s5) as [us [ts' [evs [Hrun [Hlk [Hd Hin]]]]]]
  end.
  { simpl. lia. }
  rewrite (bind_Ok _ _ _ _ _ Hrun). simpl. simpl in Hlk.
  split; [reflexivity|]. split; [reflexivity|]. split.
  - by apply (all_loading_after_dispatch p).
  - exists (hk ++ [Plugin (OnTestsStart (initial_tests_state p l)); UpdateTests (initial_tests_state p l);
                   UpdateConsole (ConsoleText "")]), evs.
    split; [by rewrite <- !app_assoc|]. split.
    + apply Forall_app; split; [apply Forall_app; split|exact Hd].
      * eapply Forall_impl; [exact (hook_logged_logs _ _ _ Hhk)|]. naive_solver.
      * repeat constructor.
    + intros i Hi. apply Hin. lia.
Qed.

End MoreProofs.

(** ** Log helpers *)

Lemma split_on_line c l r :
  ~ In c (list_ascii_of_string l) ->
  split_on c (l ++ String c r)%string = l :: split_on c r.
Proof.
  induction l as [|a l IH]; simpl; intros Hn.
  - by rewrite Ascii.eqb_refl.
  - destruct (Ascii.eqb_spec a c) as [->|Hne]; [tauto|].
    rewrite IH by tauto. reflexivity.
Qed.

Lemma split_lines_text ls :
  Forall (fun l => ~ In newline (list_ascii_of_string l)) ls ->
  split_on newline (lines_text ls) = ls ++ [""].
Proof.
  induction 1 as [|l ls Hl _ IH]; [reflexivity|].
  simpl lines_text. rewrite split_on_line by exact Hl. by rewrite IH.
Qed.

Lemma filter_nonempty_app ls :
  List.filter (fun l => negb (String.eqb l "")) (ls ++ [""]) =
  List.filter (fun l => negb (String.eqb l "")) ls.
Proof. rewrite List.filter_app. simpl. apply app_nil_r. Qed.

Lemma js_index_from_end {A} (logs : list A) n :
  js_index logs (Z.of_nat (length logs) - Z.of_nat n - 1) = reverse logs !! n.
Proof.
  unfold js_index. destruct (decide (n < length logs)).
  - rewrite (proj2 (Z.ltb_ge _ _)) by lia. rewrite reverse_lookup by lia.
    f_equal. lia.
  - rewrite (proj2 (Z.ltb_lt _ _)) by lia.
    rewrite lookup_ge_None_2; [reflexivity|]. rewrite length_reverse. lia.
Qed.

(** X11: When the bash history file holds newline-terminated lines
    without newlines inside, [getLastCommand(n)] returns the [n]-th
    non-empty line counted from the end ([undefined] past the first one),
    skipping blank lines, and leaves the files as they are. *)
Theorem getLastCommand_lines ls n fs :
  fs !! PATH_BASH_HISTORY = Some (lines_text ls) ->
  Forall (fun l => ~ In newline (list_ascii_of_string l)) ls ->
  getLastCommand (Z.of_nat n) fs =
    (reverse (List.filter (fun l => negb (String.eqb l "")) ls) !! n, fs).
Proof.
  intros Hf Hl. unfold getLastCommand, getBashHistory, readFile_a_plus.
  rewrite Hf, (split_lines_text ls Hl), filter_nonempty_app, js_index_from_end.
  reflexivity.
Qed.

(** X12: The same for [getLastCWD] and the working-directory log: the
    [n]-th non-empty line from the end. *)
Theorem getLastCWD_lines ls n fs :
  fs !! PATH_CWD = Some (lines_text ls) ->
  Forall (fun l => ~ In newline (list_ascii_of_string l)) ls ->
  getLastCWD (Z.of_nat n) fs =
    (reverse (List.filter (fun l => negb (String.eqb l "")) ls) !! n, fs).
Proof.
  intros Hf Hl. unfold getLastCWD, getCWD, readFile_a_plus.
  rewrite Hf, (split_lines_text ls Hl), filter_nonempty_app, js_index_from_end.
  reflexivity.
Qed.



(** ** Seeding *)

Lemma sbind_Ok {A B} (m : SM A) (k : A -> SM B) s a s' :
  m s = (SOk a, s') -> (m ≫= k) s = k a s'.
Proof. intros H. unfold mbind, SM_bind. by rewrite H. Qed.

Lemma sbind_Throw {A B} (m : SM A) (k : A -> SM B) s e s' :
  m s = (SThrow e, s') -> (m ≫= k) s = (SThrow e, s').
Proof. intros H. unfold mbind, SM_bind. by rewrite H. Qed.

Section SeedProofs.

Variable execute : string -> option string -> option (string * string).
Variable writable : string -> bool.
Variable getProject : Z -> option Z.
Variable projects : Z -> option Z.
Variable getLesson : Z -> Z -> option (list seed_item).

(** One step of [runCommands]: the command and its output logs; the
    rejection when it wrote to [stderr]. *)
Lemma runCommands_cons_stderr c cmds s out err :
  execute c None = Some (out, err) ->
  truthy err = true ->
  runCommands execute (c :: cmds) s =
    (SThrow (StderrReject err),
     mkSSt (files s) (lastSeed s)
       (slog s ++ [SExec c None] ++ (if truthy out then [SLogDebug [out]] else []) ++ [SLogError err])).
Proof.
  intros He Ht. destruct s as [fs ls lg].
  unfold runCommands, sfor_each, sexecute, semit, sthrow, mbind, SM_bind, mret, SM_ret; simpl.
  rewrite He, Ht. destruct (truthy out); simpl; by rewrite <- ?app_assoc.
Qed.

Lemma runCommands_cons_quiet c cmds s out :
  execute c None = Some (out, "") ->
  runCommands execute (c :: cmds) s =
    runCommands execute cmds
      (mkSSt (files s) (lastSeed s)
         (slog s ++ [SExec c None] ++ (if truthy out then [SLogDebug [out]] else []))).
Proof.
  intros He. destruct s as [fs ls lg].
  unfold runCommands at 1. unfold sfor_each at 1.
  unfold sexecute, semit, mbind, SM_bind, mret, SM_ret; simpl.
  rewrite He. destruct (truthy out); simpl; by rewrite <- ?app_assoc, ?app_nil_r.
Qed.

(** X15: [runCommands] resolves exactly when every command resolves with an
    empty [stderr]. *)
Theorem runCommands_resolves_iff cmds s :
  fst (runCommands execute cmds s) = SOk tt <->
  Forall (fun c => exists out, execute c None = Some (out, "")) cmds.
Proof.
  revert s. induction cmds as [|c cmds IH]; intros s.
  - simpl. split; [constructor|reflexivity].
  - destruct (execute c None) as [[out err]|] eqn:He.
    + destruct (truthy err) eqn:Ht.
      * rewrite (runCommands_cons_stderr c cmds s out err He Ht).
        simpl. split; [discriminate|]. intros Hf. inversion Hf as [|? ? [o Ho] _]; subst.
        rewrite He in Ho. injection Ho as _ Herr. subst err. discriminate Ht.
      * unfold truthy in Ht. apply negb_false_iff, String.eqb_eq in Ht. subst err.
        rewrite (runCommands_cons_quiet c cmds s out He), IH.
        split.
        -- intros Hf. constructor; [eauto|exact Hf].
        -- intros Hf. by inversion Hf.
    + assert (runCommands execute (c :: cmds) s =
                (SThrow (ExecError c), mkSSt (files s) (lastSeed s) (slog s ++ [SExec c None]))) as ->.
      { unfold runCommands at 1. unfold sfor_each at 1. unfold sexecute, mbind, SM_bind; simpl.
        by rewrite He. }
      simpl. split; [discriminate|]. intros Hf. inversion Hf as [|? ? [o Ho] _]; subst. congruence.
Qed.

(** X16: [runCommands] stops at the first command that writes to [stderr]:
    it logs that output and rejects with it, and the commands after it are
    never executed. *)
Theorem runCommands_stops_at_stderr pre c post out err s :
  Forall (fun c => exists out, execute c None = Some (out, "")) pre ->
  execute c None = Some (out, err) ->
  err <> "" ->
  runCommands execute (pre ++ c :: post) s = runCommands execute (pre ++ [c]) s /\
  exists evs s',
    runCommands execute (pre ++ [c]) s = (SThrow (StderrReject err), s') /\
    slog s' = slog s ++ evs ++ [SLogError err].
Proof.
  intros Hpre He Hne.
  assert (Ht : truthy err = true) by (unfold truthy; by apply negb_true_iff, String.eqb_neq).
  revert s. induction Hpre as [|c0 pre [o0 H0] _ IH]; intros s.
  - simpl. rewrite (runCommands_cons_stderr c post s out err He Ht),
      (runCommands_cons_stderr c [] s out err He Ht).
    split; [reflexivity|].
    exists ([SExec c None] ++ (if truthy out then [SLogDebug [out]] else [])). eexists.
    split; [reflexivity|]. simpl. by rewrite <- ?app_assoc.
  - simpl. rewrite (runCommands_cons_quiet c0 (pre ++ c :: post) s o0 H0),
      (runCommands_cons_quiet c0 (pre ++ [c]) s o0 H0).
    match goal with |- context [runCommands execute _ ?s1] =>
      destruct (IH s1) as [Heq [evs [s' [Hrun Hlog]]]] end.
    split; [exact Heq|]. rewrite Hrun.
    exists ([SExec c0 None] ++ (if truthy o0 then [SLogDebug [o0]] else []) ++ evs), s'.
    split; [reflexivity|]. rewrite Hlog. simpl. by rewrite <- !app_assoc.
Qed.

(** One element of a seed that runs. *)
Lemma seed_step_runs it s :
  seed_item_runs execute writable it ->
  exists blk,
    seed_step execute writable it s =
      (SOk tt, mkSSt (match it with
                      | SeedFile p c => <[p := c]> (files s)
                      | SeedCommand _ => files s
                      end) (lastSeed s) (slog s ++ blk)) /\
    match it with
    | SeedFile p c => blk = [SUnwatch p; SWriteFile p c; SWatch p]
    | SeedCommand c => In (SExec c (Some ".")) blk
    end.
Proof.
  destruct it as [c|p c]; simpl; intros Hr.
  - destruct Hr as [[out err] He].
    unfold runCommand, sexecute, semit, mbind, SM_bind, mret, SM_ret; simpl. rewrite He.
    destruct (truthy out || truthy err); simpl.
    + exists [SExec c (Some "."); SLogDebug [out; err]].
      split; [by rewrite <- app_assoc|simpl; tauto].
    + exists [SExec c (Some ".")]. split; [reflexivity|simpl; tauto].
  - unfold runSeed, semit, mbind, SM_bind; simpl. rewrite Hr. simpl.
    exists [SUnwatch p; SWriteFile p c; SWatch p]. split; [by rewrite <- !app_assoc|reflexivity].
Qed.

(** One element of a seed that throws. *)
Lemma seed_step_fails it s :
  ~ seed_item_runs execute writable it ->
  seed_step execute writable it s =
    (SThrow (match it with SeedCommand c => ExecError c | SeedFile p _ => WriteError p end),
     mkSSt (files s) (lastSeed s)
       (slog s ++ match it with SeedCommand c => [SExec c (Some ".")] | SeedFile p _ => [SUnwatch p] end)).
Proof.
  destruct it as [c|p c]; simpl; intros Hr.
  - destruct (execute c (Some ".")) eqn:He; [exfalso; apply Hr; eauto|].
    unfold runCommand, sexecute, mbind, SM_bind; simpl. by rewrite He.
  - apply not_true_iff_false in Hr.
    unfold runSeed, semit, mbind, SM_bind; simpl. by rewrite Hr.
Qed.

Lemma seed_loop_runs seed : forall s,
  Forall (seed_item_runs execute writable) seed ->
  exists fs' evs,
    sfor_each seed (seed_step execute writable) s = (SOk tt, mkSSt fs' (lastSeed s) (slog s ++ evs)) /\
    (forall p, fs' !! p = match last_seed_for p seed with
                          | Some c => Some c
                          | None => files s !! p
                          end) /\
    Forall (fun it => match it with
                      | SeedFile p c => exists a b, evs = a ++ [SUnwatch p; SWriteFile p c; SWatch p] ++ b
                      | SeedCommand c => In (SExec c (Some ".")) evs
                      end) seed.
Proof.
  induction seed as [|it seed IH]; intros s Hall.
  - exists (files s), []. destruct s; simpl. rewrite app_nil_r. split; [reflexivity|]. by split.
  - inversion Hall as [|? ? Hit Hrest]; subst.
    destruct (seed_step_runs it s Hit) as [blk [Hstep Hblk]].
    destruct (IH (mkSSt (match it with
                         | SeedFile p c => <[p := c]> (files s)
                         | SeedCommand _ => files s
                         end) (lastSeed s) (slog s ++ blk)) Hrest) as [fs' [evs [Hrun [Hfs Hev]]]].
    exists fs', (blk ++ evs). simpl sfor_each.
    rewrite (sbind_Ok _ _ _ _ _ Hstep), Hrun. simpl. rewrite <- app_assoc.
    split; [reflexivity|]. split.
    + intros q. rewrite Hfs. simpl. destruct (last_seed_for q seed); [reflexivity|].
      destruct it as [c|p c]; [reflexivity|]. simpl.
      destruct (String.eqb_spec p q) as [->|Hne].
      * apply lookup_insert_eq.
      * by apply lookup_insert_ne.
    + constructor.
      * destruct it as [c|p c].
        -- rewrite in_app_iff. tauto.
        -- subst blk. exists [], evs. reflexivity.
      * eapply Forall_impl; [exact Hev|]. intros [c|p c]; simpl.
        -- rewrite in_app_iff. tauto.
        -- intros [a [b ->]]. exists (blk ++ a), b. by rewrite <- app_assoc.
Qed.


(** X18: In a seed that runs, each file seed is written between
    [watcher.unwatch] and [watcher.add] of its path, with no event in
    between, and each command is executed in the root directory. *)
Theorem runLessonSeed_watcher seed n s :
  Forall (seed_item_runs execute writable) seed ->
  exists evs,
    slog (snd (runLessonSeed execute writable seed n s)) = slog s ++ evs /\
    Forall (fun it => match it with
                      | SeedFile p c => exists a b, evs = a ++ [SUnwatch p; SWriteFile p c; SWatch p] ++ b
                      | SeedCommand c => In (SExec c (Some ".")) evs
                      end) seed.
Proof.
  intros Hall.
  destruct (seed_loop_runs seed s Hall) as [fs' [evs [Hrun [_ Hev]]]].
  exists evs. unfold runLessonSeed, stry_catch. rewrite Hrun. split; [reflexivity|exact Hev].
Qed.

Lemma seed_loop_fails pre it post : forall s,
  Forall (seed_item_runs execute writable) pre ->
  ~ seed_item_runs execute writable it ->
  sfor_each (pre ++ it :: post) (seed_step execute writable) s =
    sfor_each (pre ++ [it]) (seed_step execute writable) s /\
  exists fs' evs,
    sfor_each (pre ++ [it]) (seed_step execute writable) s =
      (SThrow (match it with SeedCommand c => ExecError c | SeedFile p _ => WriteError p end),
       mkSSt fs' (lastSeed s)
         (slog s ++ evs ++ match it with SeedCommand c => [SExec c (Some ".")] | SeedFile p _ => [SUnwatch p] end)).
Proof.
  induction pre as [|it0 pre IH]; intros s Hpre Hit.
  - simpl. rewrite (sbind_Throw _ _ _ _ _ (seed_step_fails it s Hit)),
      (sbind_Throw _ _ _ _ _ (seed_step_fails it s Hit)).
    split; [reflexivity|]. exists (files s), []. reflexivity.
  - inversion Hpre as [|? ? H0 Hrest]; subst.
    destruct (seed_step_runs it0 s H0) as [blk [Hstep _]].
    simpl. rewrite (sbind_Ok _ _ _ _ _ Hstep), (sbind_Ok _ _ _ _ _ Hstep).
    destruct (IH (mkSSt (match it0 with
                         | SeedFile p c => <[p := c]> (files s)
                         | SeedCommand _ => files s
                         end) (lastSeed s) (slog s ++ blk)) Hrest Hit) as [Heq [fs' [evs Hrun]]].
    split; [exact Heq|]. rewrite Hrun. exists fs', (blk ++ evs). simpl. by rewrite <- !app_assoc.
Qed.

(** X19: A seed stops at its first element that throws (a command whose
    promise rejects or a file that cannot be written): the later elements
    never run, a file that failed to be written stays unwatched, the
    failure is logged with the lesson number and [runLessonSeed] rethrows
    it wrapped in a new [Error]. *)
Theorem runLessonSeed_stops_at_failure pre it post n s :
  Forall (seed_item_runs execute writable) pre ->
  ~ seed_item_runs execute writable it ->
  runLessonSeed execute writable (pre ++ it :: post) n s = runLessonSeed execute writable (pre ++ [it]) n s /\
  exists fs' evs,
    runLessonSeed execute writable (pre ++ [it]) n s =
      (SThrow (WrappedError (match it with SeedCommand c => ExecError c | SeedFile p _ => WriteError p end)),
       mkSSt fs' (lastSeed s)
         (slog s ++ evs ++ match it with SeedCommand c => [SExec c (Some ".")] | SeedFile p _ => [SUnwatch p] end
          ++ [SLogErrorLesson "Failed to run seed for lesson: " n])).
Proof.
  intros Hpre Hit.
  destruct (seed_loop_fails pre it post s Hpre Hit) as [Heq [fs' [evs Hrun]]].
  unfold runLessonSeed, stry_catch. rewrite Heq, Hrun. split; [reflexivity|].
  exists fs', evs. unfold semit, sthrow, mbind, SM_bind; simpl. by rewrite <- !app_assoc.
Qed.

Lemma seed_step_keeps it s :
  lastSeed (snd (seed_step execute writable it s)) = lastSeed s /\
  exists evs, slog (snd (seed_step execute writable it s)) = slog s ++ evs.
Proof.
  assert (Hd : Decision (seed_item_runs execute writable it))
    by (destruct it; unfold seed_item_runs; apply _).
  destruct Hd as [Hr|Hr].
  - destruct (seed_step_runs it s Hr) as [blk [-> _]]. simpl. eauto.
  - rewrite (seed_step_fails it s Hr). simpl. eauto.
Qed.

Lemma runLessonSeed_keeps seed n s :
  lastSeed (snd (runLessonSeed execute writable seed n s)) = lastSeed s /\
  exists evs, slog (snd (runLessonSeed execute writable seed n s)) = slog s ++ evs.
Proof.
  assert (Hloop : forall s,
    lastSeed (snd (sfor_each seed (seed_step execute writable) s)) = lastSeed s /\
    exists evs, slog (snd (sfor_each seed (seed_step execute writable) s)) = slog s ++ evs).
  { induction seed as [|it seed IH]; intros s0; [split; [reflexivity|exists []; by rewrite app_nil_r]|].
    simpl. destruct (seed_step_keeps it s0) as [Hl [evs Hs]].
    unfold mbind, SM_bind. destruct (seed_step execute writable it s0) as [[[]|e] s1] eqn:E; simpl in *.
    - destruct (IH s1) as [Hl' [evs' Hs']]. rewrite Hl', Hl. split; [reflexivity|].
      rewrite Hs', Hs. exists (evs ++ evs'). by rewrite app_assoc.
    - split; [exact Hl|]. eauto. }
  unfold runLessonSeed, stry_catch.
  destruct (Hloop s) as [Hl [evs Hs]].
  destruct (sfor_each seed (seed_step execute writable) s) as [[[]|e] s1]; simpl in *.
  - split; [exact Hl|]. eauto.
  - split; [exact Hl|]. rewrite Hs. exists (evs ++ [SLogErrorLesson "Failed to run seed for lesson: " n]).
    by rewrite app_assoc.
Qed.

(** X20: When the project and its lesson are found and the seed runs,
    [seedLesson] resolves after running the seed of the current lesson and
    records [lastSeed = { projectId, lessonNumber: currentLesson }]. *)
Theorem seedLesson_records_lastSeed projectId id n seed s :
  getProject projectId = Some id ->
  projects id = Some n ->
  getLesson projectId n = Some seed ->
  Forall (seed_item_runs execute writable) seed ->
  let s1 := snd (runLessonSeed execute writable seed n s) in
  fst (runLessonSeed execute writable seed n s) = SOk tt /\
  seedLesson execute writable getProject projects getLesson projectId s =
    (SOk tt, mkSSt (files s1) (Some (projectId, n)) (slog s1)).
Proof.
  intros Hp Hn Hl Hall. cbv zeta.
  destruct (seed_loop_runs seed s Hall) as [fs' [evs [Hrun _]]].
  assert (Hseed : runLessonSeed execute writable seed n s = (SOk tt, mkSSt fs' (lastSeed s) (slog s ++ evs))).
  { unfold runLessonSeed, stry_catch. by rewrite Hrun. }
  rewrite Hseed. split; [reflexivity|].
  unfold seedLesson. rewrite Hp. rewrite (sbind_Ok _ _ s id s) by reflexivity.
  rewrite Hn. rewrite (sbind_Ok _ _ s n s) by reflexivity.
  unfold stry_catch. rewrite Hl. rewrite (sbind_Ok _ _ s seed s) by reflexivity.
  rewrite (sbind_Ok _ _ _ _ _ Hseed). reflexivity.
Qed.

(** X21: When the lesson cannot be read or its seed throws, [seedLesson]
    catches the error: it sends it to the client, logs it and resolves,
    and [lastSeed] is left as it was. *)
Theorem seedLesson_reports_failure projectId id n s :
  getProject projectId = Some id ->
  projects id = Some n ->
  (getLesson projectId n = None \/
   exists seed, getLesson projectId n = Some seed /\
     exists e, fst (runLessonSeed execute writable seed n s) = SThrow e) ->
  exists e s',
    seedLesson execute writable getProject projects getLesson projectId s =
      (SOk tt, mkSSt (files s') (lastSeed s) (slog s' ++ [SUpdateError e; SLogErrorExc e])) /\
    exists evs, slog s' = slog s ++ evs.
Proof.
  intros Hp Hn Hf.
  unfold seedLesson. rewrite Hp. rewrite (sbind_Ok _ _ s id s) by reflexivity.
  rewrite Hn. rewrite (sbind_Ok _ _ s n s) by reflexivity.
  unfold stry_catch. destruct Hf as [Hl|[seed [Hl [e He]]]].
  - rewrite Hl. rewrite (sbind_Throw _ _ s LessonError s) by reflexivity.
    exists LessonError, s. unfold semit, mbind, SM_bind; simpl.
    split; [by rewrite <- app_assoc|]. exists []. by rewrite app_nil_r.
  - rewrite Hl. rewrite (sbind_Ok _ _ s seed s) by reflexivity.
    destruct (runLessonSeed_keeps seed n s) as [Hls [evs Hs]].
    destruct (runLessonSeed execute writable seed n s) as [r s1] eqn:E. simpl in He, Hls, Hs. subst r.
    rewrite (sbind_Throw _ _ _ _ _ E).
    exists e, s1. unfold semit, mbind, SM_bind; simpl. rewrite Hls.
    split; [by rewrite <- app_assoc|]. eauto.
Qed.

(** X22: When the project is not found or has no entry in the state's
    [projects], [seedLesson] rejects with a [TypeError] before the
    [try]: nothing is seeded, logged or sent to the client. *)
Theorem seedLesson_unknown_project projectId s :
  (getProject projectId = None \/
   exists id, getProject projectId = Some id /\ projects id = None) ->
  seedLesson execute writable getProject projects getLesson projectId s = (SThrow SeedTypeError, s).
Proof.
  intros [Hp|[id [Hp Hn]]]; unfold seedLesson; rewrite Hp.
  - by apply sbind_Throw.
  - rewrite (sbind_Ok _ _ s id s) by reflexivity. rewrite Hn. by apply sbind_Throw.
Qed.

End SeedProofs.

(** ** Concrete runs *)

(** Backends whose hooks all succeed, and a localisation without entries. *)
Definition node_ok (c : string) : bool := true.
Definition python_ok (c : string) : bool := true.
Definition python_fails (c : string) : bool := false.
Definition no_translation (k : string) : option string := None.
Definition fr_translation (k : string) : option string := Some "attendu 1, obtenu 2".

(** A parallel project at its first of three lessons. *)
Definition demo_project : project := mkProject "learn-x" 0 3 false false.

(** Two Node tests and a Node [afterAll] hook. *)
Definition demo_lesson : lesson :=
  mkLesson None None (Some (mkTester "Node" "await cleanup();")) None ["hint"]
    [mkTest "first" "assert(a)" "Node"; mkTest "second" "assert(b)" "Node"].

Definition empty_st : st := mkSt [] [] [] 0.

(** C1: The teardown fires twice in a parallel run of two tests, both when
    each worker exits after posting its result and when the user cancels
    (both workers terminated with code 1) after the first result came in. *)
Lemma afterAll_fires_twice :
  let natural := run node_ok python_ok no_translation demo_project demo_lesson
    [WorkerMessage (mkMessage true 0 None); WorkerExit 0 0;
     WorkerMessage (mkMessage true 1 None); WorkerExit 1 0] empty_st in
  let cancelled := run node_ok python_ok no_translation demo_project demo_lesson
    [WorkerMessage (mkMessage true 0 None); WorkerExit 1 1; WorkerExit 0 1] empty_st in
  count_events is_after_all_start (trace natural) = 2 /\
  count_events is_tests_end (trace natural) = 2 /\
  count_events is_after_all_start (trace cancelled) = 2 /\
  count_events is_tests_end (trace cancelled) = 2.
Proof. vm_compute. repeat split. Qed.

(** C7: A worker of another run (handle 9) is in the pool when this run's only
    test settles: the terminal aggregation removes it as well. *)
Lemma pool_cleared_of_other_runs :
  let l := mkLesson None None None None [] [mkTest "only" "assert(a)" "Node"] in
  let s0 := mkSt [] [9] [] 10 in
  fst (runTests node_ok python_ok demo_project l s0) = Ok [(10, Some 0)] /\
  WORKER_POOL (snd (runTests node_ok python_ok demo_project l s0)) = [9; 10] /\
  WORKER_POOL (run node_ok python_ok no_translation demo_project l
                 [WorkerMessage (mkMessage true 0 None)] s0) = [].
Proof. vm_compute. repeat split. Qed.

(** ** Witnesses *)

Definition demo_env : env :=
  mkEnv demo_project ["hint"] 0 (Some (mkTester "Node" "await cleanup();"))
    (Some (mkTester "Python" "teardown()")).

Definition settled_st : st := mkSt [mkTestState true "first" 0 false] [3] [] 4.

Definition loading_st : st :=
  mkSt [mkTestState true "first" 0 false; mkTestState false "second" 1 true] [3; 4] [] 5.

Lemma checkTestsCallback_all_passed_witness :
  Forall (fun x => passed x = true) (testsState settled_st) /\
  exists rest,
    trace (snd (checkTestsCallback node_ok python_ok demo_env settled_st)) =
      trace settled_st ++ [Plugin OnLessonPassed; ResetBottomPanel] ++
      [SetProjectConfig "learn-x" (CurrentLesson 1); RunLesson "learn-x"] ++ rest
    /\ Forall (fun e => is_progression_event e = false) rest.
Proof.
  split; [repeat constructor|].
  apply (checkTestsCallback_all_passed node_ok python_ok demo_env settled_st).
  repeat constructor.
Defined.

Lemma checkTestsCallback_settled_repeats_witness :
  Forall (fun x => isLoading x = false) (testsState settled_st) /\
  exists evs,
    trace (snd (checkTestsCallback node_ok python_ok demo_env settled_st)) = trace settled_st ++ evs /\
    trace (snd (checkTestsCallback node_ok python_ok demo_env
                  (snd (checkTestsCallback node_ok python_ok demo_env settled_st)))) =
      trace (snd (checkTestsCallback node_ok python_ok demo_env settled_st)) ++ evs /\
    testsState (snd (checkTestsCallback node_ok python_ok demo_env
                  (snd (checkTestsCallback node_ok python_ok demo_env settled_st)))) =
      testsState settled_st /\
    count_events is_tests_end evs = 1 /\
    count_events is_after_all_start evs = 1.
Proof.
  split; [repeat constructor|].
  apply (checkTestsCallback_settled_repeats node_ok python_ok demo_env settled_st).
  repeat constructor.
Defined.

Lemma checkTestsCallback_pool_witness :
  WORKER_POOL (snd (checkTestsCallback node_ok python_ok demo_env settled_st)) = [] /\
  WORKER_POOL (snd (checkTestsCallback node_ok python_ok demo_env loading_st)) = [3; 4].
Proof.
  split.
  - apply (checkTestsCallback_pool node_ok python_ok demo_env settled_st).
  - apply (checkTestsCallback_pool node_ok python_ok demo_env loading_st).
Defined.

Lemma handleWorkerExit_blocking_cancel_witness :
  testsState loading_st !! 1 = Some (mkTestState false "second" 1 true) /\
  testsState (snd (handleWorkerExit node_ok python_ok demo_env 1 None loading_st)) !! 1
    = Some (mkTestState false "second" 1 false) /\
  testsState (snd (handleWorkerExit node_ok python_ok demo_env 1 None loading_st)) !! 0
    = Some (mkTestState true "first" 0 false).
Proof.
  destruct (handleWorkerExit_blocking_cancel node_ok python_ok demo_env loading_st) as [_ H].
  split; [reflexivity|]. split.
  - exact (proj1 (proj1 (H 1 _ eq_refl) eq_refl)).
  - exact (proj2 (H 0 _ eq_refl) eq_refl).
Defined.

Lemma handleWorkerExit_parallel_cancel_witness :
  testsState loading_st !! 1 = Some (mkTestState false "second" 1 true) /\
  testsState (snd (handleWorkerExit node_ok python_ok demo_env 1 (Some 1) loading_st)) !! 1
    = Some (mkTestState false "second" 1 false) /\
  (forall j, j <> 1 ->
     testsState (snd (handleWorkerExit node_ok python_ok demo_env 1 (Some 1) loading_st)) !! j
       = testsState loading_st !! j) /\
  In (UpdateConsole (ConsoleTestError (mkTestState false "second" 1 false) (ErrText "Tests cancelled.")))
     (trace (snd (handleWorkerExit node_ok python_ok demo_env 1 (Some 1) loading_st))).
Proof.
  split; [reflexivity|].
  apply (handleWorkerExit_parallel_cancel node_ok python_ok demo_env 1
           (mkTestState false "second" 1 true) loading_st).
  reflexivity.
Defined.

(** The [afterEach] hook of [demo_env] runs on Python, which fails here. *)
Lemma handleWorkerExit_afterEach_then_check_witness :
  (forall j, Some 1 = Some j -> (1 = 1)%Z -> j < length (testsState loading_st)) /\
  exists s1 hk,
    hook_logged "after-each" (env_afterEach demo_env) hk /\
    WORKER_POOL s1 = WORKER_POOL loading_st /\
    (exists pre, trace s1 = trace loading_st ++ pre) /\
    handleWorkerExit node_ok python_fails demo_env 1 (Some 1) loading_st
      = checkTestsCallback node_ok python_fails demo_env (app_trace s1 hk).
Proof.
  assert (H : forall j, Some 1 = Some j -> (1 = 1)%Z -> j < length (testsState loading_st)).
  { intros j Hj _. injection Hj as <-. simpl. lia. }
  split; [exact H|].
  exact (handleWorkerExit_afterEach_then_check node_ok python_fails demo_env 1 (Some 1) loading_st H).
Defined.

Definition failing_message : message :=
  mkMessage false 1 (Some (mkWorkerError "AssertionError" "expected 1 to equal 2")).

Lemma workerMessage_localises_error_witness :
  testsState loading_st !! 1 = Some (mkTestState false "second" 1 true) /\
  msg_error failing_message = Some (mkWorkerError "AssertionError" "expected 1 to equal 2") /\
  "expected 1 to equal 2" <> "" /\
  testsState (snd (workerMessage node_ok python_ok fr_translation demo_env failing_message loading_st))
    !! 1 = Some (mkTestState false "second" 1 false) /\
  exists msg',
    In (UpdateConsole (ConsoleTestError (mkTestState false "second" 1 false)
          (ErrObject (mkWorkerError "AssertionError" msg'))))
       (trace (snd (workerMessage node_ok python_ok fr_translation demo_env failing_message loading_st))) /\
    (forall tr, fr_translation "expected 1 to equal 2" = Some tr -> tr <> "" -> msg' = tr) /\
    (fr_translation "expected 1 to equal 2" = None \/ fr_translation "expected 1 to equal 2" = Some "" ->
     msg' = "expected 1 to equal 2").
Proof.
  split; [reflexivity|]. split; [reflexivity|]. split; [discriminate|].
  apply (workerMessage_localises_error node_ok python_ok fr_translation demo_env failing_message
           (mkWorkerError "AssertionError" "expected 1 to equal 2")
           (mkTestState false "second" 1 true) loading_st); [reflexivity|reflexivity|discriminate].
Defined.

(** A Node [beforeAll] with a Python test. *)
Definition mixed_lesson : lesson :=
  mkLesson (Some (mkTester "Node" "seed()")) None None None []
    [mkTest "only" "assert(a)" "Python"].

Lemma runTests_runner_mismatch_witness :
  hd_error (List.filter non_null (lesson_testers mixed_lesson)) = Some (Some (mkTester "Node" "seed()")) /\
  In (Some (mkTester "Python" "assert(a)")) (lesson_testers mixed_lesson) /\
  "Python" <> "Node" /\
  exists found, found <> "Node" /\
    runTests node_ok python_ok demo_project mixed_lesson loading_st =
      (Ok [], mkSt [] [3; 4]
                [LogError "Test Error: "; LogException (RunnerMismatch found "Node")] 5).
Proof.
  split; [reflexivity|]. split; [simpl; tauto|]. split; [discriminate|].
  apply (runTests_runner_mismatch node_ok python_ok demo_project mixed_lesson loading_st
           (mkTester "Node" "seed()") (mkTester "Python" "assert(a)")); [reflexivity|simpl; tauto|discriminate].
Defined.

(** A Python lesson whose [beforeAll] throws; blocking mode. *)
Definition python_lesson : lesson :=
  mkLesson (Some (mkTester "Python" "seed()")) None None None []
    [mkTest "one" "assert a" "Python"; mkTest "two" "assert b" "Python"].

Definition blocking_project : project := mkProject "learn-py" 1 3 false true.

Lemma runTests_beforeAll_once_witness :
  beforeAll python_lesson = Some (mkTester "Python" "seed()") /\
  Forall (fun o => forall x, o = Some x -> runner x = "Python") (lesson_testers python_lesson) /\
  exists hk rest ls,
    hook_logged "before-all" (Some (mkTester "Python" "seed()")) hk /\
    fst (runTests node_ok python_fails blocking_project python_lesson empty_st) = Ok ls /\
    length ls = 1 /\
    trace (snd (runTests node_ok python_fails blocking_project python_lesson empty_st)) =
      [] ++ hk ++
      [Plugin (OnTestsStart (initial_tests_state blocking_project python_lesson));
       UpdateTests (initial_tests_state blocking_project python_lesson);
       UpdateConsole (ConsoleText "")] ++ rest /\
    Forall (fun e => is_dispatch_event e = true) rest /\
    (forall i, i < 2 -> exists w, In (PostMessage w i) rest).
Proof.
  assert (Hc : Forall (fun o => forall x, o = Some x -> runner x = "Python")
                 (lesson_testers python_lesson)).
  { repeat (constructor; [intros ? Hx; inversion Hx; reflexivity|]). constructor. }
  split; [reflexivity|]. split; [exact Hc|].
  exact (runTests_beforeAll_once node_ok python_fails blocking_project python_lesson
           (mkTester "Python" "seed()") empty_st eq_refl Hc).
Defined.

(** ** Witnesses of the further properties *)

Lemma removeWorkerFromPool_first_witness :
  WORKER_POOL loading_st = [3] ++ 4 :: [] /\ (4 ∉ [3]) /\
  removeWorkerFromPool 4 loading_st =
    (Ok tt, mkSt (testsState loading_st) ([3] ++ []) (trace loading_st) (fresh loading_st)).
Proof.
  assert (Hn : 4 ∉ [3]) by (apply (bool_decide_unpack _); vm_compute; exact I).
  split; [reflexivity|]. split; [exact Hn|].
  apply (removeWorkerFromPool_first 4 [3] [] loading_st); [reflexivity|exact Hn].
Defined.

Lemma removeWorkerFromPool_absent_witness :
  (7 ∉ WORKER_POOL loading_st) /\ removeWorkerFromPool 7 loading_st = (Ok tt, loading_st).
Proof.
  assert (Hn : 7 ∉ WORKER_POOL loading_st) by (apply (bool_decide_unpack _); vm_compute; exact I).
  split; [exact Hn|]. exact (removeWorkerFromPool_absent 7 loading_st Hn).
Defined.

Lemma workerMessage_unknown_test_witness :
  testsState loading_st !! 5 = None /\
  workerMessage node_ok python_ok no_translation demo_env (mkMessage true 5 None) loading_st
    = (Throw TypeError, loading_st).
Proof.
  split; [reflexivity|].
  apply (workerMessage_unknown_test node_ok python_ok no_translation demo_env (mkMessage true 5 None) loading_st).
  reflexivity.
Defined.

Lemma workerMessage_settles_own_test_witness :
  testsState loading_st !! 1 = Some (mkTestState false "second" 1 true) /\
  fst (workerMessage node_ok python_ok fr_translation demo_env failing_message loading_st) = Ok tt /\
  testsState (snd (workerMessage node_ok python_ok fr_translation demo_env failing_message loading_st))
    = <[1 := mkTestState false "second" 1 false]> (testsState loading_st) /\
  In (UpdateTest (mkTestState false "second" 1 false))
     (trace (snd (workerMessage node_ok python_ok fr_translation demo_env failing_message loading_st))).
Proof.
  split; [reflexivity|].
  apply (workerMessage_settles_own_test node_ok python_ok fr_translation demo_env failing_message
           (mkTestState false "second" 1 true) loading_st).
  reflexivity.
Defined.

Lemma workerMessage_no_error_no_console_witness :
  testsState loading_st !! 1 = Some (mkTestState false "second" 1 true) /\
  msg_error (mkMessage true 1 None) = None /\
  exists rest,
    trace (snd (workerMessage node_ok python_ok no_translation demo_env (mkMessage true 1 None) loading_st)) =
      trace loading_st ++ [UpdateTest (mkTestState true "second" 1 false)] ++ rest /\
    Forall (fun e => is_console_event e = false) rest.
Proof.
  split; [reflexivity|]. split; [reflexivity|].
  apply (workerMessage_no_error_no_console node_ok python_ok no_translation demo_env (mkMessage true 1 None)
           (mkTestState false "second" 1 true) loading_st); reflexivity.
Defined.

Lemma workerMessage_logs_non_assertion_errors_witness :
  testsState loading_st !! 1 = Some (mkTestState false "second" 1 true) /\
  msg_error failing_message = Some (mkWorkerError "AssertionError" "expected 1 to equal 2") /\
  exists evs,
    trace (snd (workerMessage node_ok python_ok fr_translation demo_env failing_message loading_st))
      = trace loading_st ++ evs /\
    (In (LogTestError 1 (mkWorkerError "AssertionError" "expected 1 to equal 2")) evs <->
     "AssertionError" <> "AssertionError").
Proof.
  split; [reflexivity|]. split; [reflexivity|].
  apply (workerMessage_logs_non_assertion_errors node_ok python_ok fr_translation demo_env failing_message
           (mkTestState false "second" 1 true) (mkWorkerError "AssertionError" "expected 1 to equal 2")
           loading_st); reflexivity.
Defined.

Lemma checkTestsCallback_some_failed_witness :
  Exists (fun x => passed x = false) (testsState loading_st) /\
  testsState (snd (checkTestsCallback node_ok python_ok demo_env loading_st)) = testsState loading_st /\
  exists rest,
    trace (snd (checkTestsCallback node_ok python_ok demo_env loading_st)) =
      trace loading_st ++ [Plugin OnLessonFailed; UpdateHints ["hint"]] ++ rest /\
    Forall (fun e => is_progression_event e = false) rest.
Proof.
  assert (Hf : Exists (fun x => passed x = false) (testsState loading_st)).
  { apply Exists_cons_tl. apply Exists_cons_hd. reflexivity. }
  split; [exact Hf|].
  exact (checkTestsCallback_some_failed node_ok python_ok demo_env loading_st Hf).
Defined.

Lemma handleWorkerExit_other_code_witness :
  (0 <> 1)%Z /\
  exists hk,
    hook_logged "after-each" (env_afterEach demo_env) hk /\
    handleWorkerExit node_ok python_fails demo_env 0 (Some 1) loading_st
      = checkTestsCallback node_ok python_fails demo_env (app_trace loading_st hk) /\
    testsState (snd (handleWorkerExit node_ok python_fails demo_env 0 (Some 1) loading_st))
      = testsState loading_st.
Proof.
  split; [lia|].
  apply (handleWorkerExit_other_code node_ok python_fails demo_env 0 (Some 1) loading_st). lia.
Defined.

Lemma runTests_parallel_dispatch_witness :
  blockingTests demo_project = false /\
  hd_error (List.filter non_null (lesson_testers demo_lesson)) = Some (Some (mkTester "Node" "await cleanup();")) /\
  Forall (fun o => forall x, o = Some x -> runner x = "Node") (lesson_testers demo_lesson) /\
  fst (runTests node_ok python_ok demo_project demo_lesson empty_st) = Ok [(0, Some 0); (1, Some 1)] /\
  WORKER_POOL (snd (runTests node_ok python_ok demo_project demo_lesson empty_st)) = [0; 1] /\
  testsState (snd (runTests node_ok python_ok demo_project demo_lesson empty_st)) =
    [mkTestState false "first" 0 true; mkTestState false "second" 1 true] /\
  (forall i x, tests demo_lesson !! i = Some x ->
     In (CreateWorker (IndexedWorker i) (test_runner x) (0 + i))
        (trace (snd (runTests node_ok python_ok demo_project demo_lesson empty_st)))).
Proof.
  assert (Hc : Forall (fun o => forall x, o = Some x -> runner x = "Node") (lesson_testers demo_lesson)).
  { repeat (constructor; [intros ? Hx; inversion Hx; reflexivity|]). constructor. }
  split; [reflexivity|]. split; [reflexivity|]. split; [exact Hc|].
  exact (runTests_parallel_dispatch node_ok python_ok demo_project demo_lesson empty_st
           (mkTester "Node" "await cleanup();") eq_refl eq_refl Hc).
Defined.

Lemma runTests_blocking_dispatch_witness :
  blockingTests blocking_project = true /\
  hd_error (List.filter non_null (lesson_testers python_lesson)) = Some (Some (mkTester "Python" "seed()")) /\
  Forall (fun o => forall x, o = Some x -> runner x = "Python") (lesson_testers python_lesson) /\
  fst (runTests node_ok python_ok blocking_project python_lesson empty_st) = Ok [(0, None)] /\
  WORKER_POOL (snd (runTests node_ok python_ok blocking_project python_lesson empty_st)) = [] ++ [0] /\
  testsState (snd (runTests node_ok python_ok blocking_project python_lesson empty_st)) =
    [mkTestState false "one" 0 true; mkTestState false "two" 1 true] /\
  exists pre post,
    trace (snd (runTests node_ok python_ok blocking_project python_lesson empty_st)) =
      [] ++ pre ++ [CreateWorker BlockingWorker "Python" 0] ++ post /\
    Forall (fun e => is_worker_creation e = false) (pre ++ post) /\
    (forall i, i < 2 -> In (PostMessage 0 i) post).
Proof.
  assert (Hc : Forall (fun o => forall x, o = Some x -> runner x = "Python")
                 (lesson_testers python_lesson)).
  { repeat (constructor; [intros ? Hx; inversion Hx; reflexivity|]). constructor. }
  split; [reflexivity|]. split; [reflexivity|]. split; [exact Hc|].
  exact (runTests_blocking_dispatch node_ok python_ok blocking_project python_lesson empty_st
           (mkTester "Python" "seed()") eq_refl eq_refl Hc).
Defined.

(** A history of three commands with a blank line. *)
Definition demo_history : list string := ["npm test"; ""; "cd learn-x"].

Lemma demo_history_lines :
  Forall (fun l => ~ In newline (list_ascii_of_string l)) demo_history.
Proof.
  repeat constructor; simpl; intros H; repeat destruct H as [H|H]; try discriminate H; exact H.
Qed.

Lemma getLastCommand_lines_witness :
  ({[PATH_BASH_HISTORY := lines_text demo_history]} : fsys) !! PATH_BASH_HISTORY = Some (lines_text demo_history) /\
  Forall (fun l => ~ In newline (list_ascii_of_string l)) demo_history /\
  getLastCommand (Z.of_nat 1) {[PATH_BASH_HISTORY := lines_text demo_history]} =
    (Some "npm test", {[PATH_BASH_HISTORY := lines_text demo_history]}).
Proof.
  split; [reflexivity|]. split; [exact demo_history_lines|].
  exact (getLastCommand_lines demo_history 1 {[PATH_BASH_HISTORY := lines_text demo_history]}
           eq_refl demo_history_lines).
Defined.

Lemma getLastCWD_lines_witness :
  ({[PATH_CWD := lines_text demo_history]} : fsys) !! PATH_CWD = Some (lines_text demo_history) /\
  Forall (fun l => ~ In newline (list_ascii_of_string l)) demo_history /\
  getLastCWD (Z.of_nat 0) {[PATH_CWD := lines_text demo_history]} =
    (Some "cd learn-x", {[PATH_CWD := lines_text demo_history]}).
Proof.
  split; [reflexivity|]. split; [exact demo_history_lines|].
  exact (getLastCWD_lines demo_history 0 {[PATH_CWD := lines_text demo_history]}
           eq_refl demo_history_lines).
Defined.



(** Commands: ["fail"] exits with a non-zero status, ["warn"] writes to
    [stderr]; the file ["locked.txt"] cannot be written. *)
Definition demo_execute (cmd : string) (cwd : option string) : option (string * string) :=
  if String.eqb cmd "fail" then None
  else if String.eqb cmd "warn" then Some ("", "deprecated")
  else Some ("done", "").

Definition demo_writable (p : string) : bool := negb (String.eqb p "locked.txt").

Definition demo_getProject (projectId : Z) : option Z :=
  if Z.eqb projectId 9 then None else Some projectId.

Definition demo_projects (id : Z) : option Z :=
  if Z.eqb id 1 then Some 2%Z else if Z.eqb id 2 then Some 3%Z else None.

Definition demo_seed : list seed_item := [SeedCommand "warn"; SeedFile "a.js" "x"; SeedFile "a.js" "y"].

Definition demo_getLesson (projectId lessonNumber : Z) : option (list seed_item) :=
  if Z.eqb lessonNumber 2%Z then Some demo_seed else None.

Definition empty_sst : sst := mkSSt ∅ None [].

Lemma demo_seed_runs : Forall (seed_item_runs demo_execute demo_writable) demo_seed.
Proof. repeat constructor. simpl. eexists. reflexivity. Qed.

Lemma runCommands_stops_at_stderr_witness :
  Forall (fun c => exists out, demo_execute c None = Some (out, "")) ["ls"] /\
  demo_execute "warn" None = Some ("", "deprecated") /\
  "deprecated" <> "" /\
  runCommands demo_execute (["ls"] ++ "warn" :: ["rm -rf build"]) empty_sst =
    runCommands demo_execute (["ls"] ++ ["warn"]) empty_sst /\
  exists evs s',
    runCommands demo_execute (["ls"] ++ ["warn"]) empty_sst = (SThrow (StderrReject "deprecated"), s') /\
    slog s' = slog empty_sst ++ evs ++ [SLogError "deprecated"].
Proof.
  assert (Hpre : Forall (fun c => exists out, demo_execute c None = Some (out, "")) ["ls"]).
  { constructor; [|constructor]. eexists. reflexivity. }
  split; [exact Hpre|]. split; [reflexivity|]. split; [discriminate|].
  exact (runCommands_stops_at_stderr demo_execute ["ls"] "warn" ["rm -rf build"] "" "deprecated"
           empty_sst Hpre eq_refl ltac:(discriminate)).
Defined.


Lemma runLessonSeed_watcher_witness :
  Forall (seed_item_runs demo_execute demo_writable) demo_seed /\
  exists evs,
    slog (snd (runLessonSeed demo_execute demo_writable demo_seed 2 empty_sst)) = slog empty_sst ++ evs /\
    Forall (fun it => match it with
                      | SeedFile p c => exists a b, evs = a ++ [SUnwatch p; SWriteFile p c; SWatch p] ++ b
                      | SeedCommand c => In (SExec c (Some ".")) evs
                      end) demo_seed.
Proof.
  split; [exact demo_seed_runs|].
  exact (runLessonSeed_watcher demo_execute demo_writable demo_seed 2 empty_sst demo_seed_runs).
Defined.

Lemma runLessonSeed_stops_at_failure_witness :
  Forall (seed_item_runs demo_execute demo_writable) [SeedCommand "npm i"] /\
  ~ seed_item_runs demo_execute demo_writable (SeedFile "locked.txt" "z") /\
  runLessonSeed demo_execute demo_writable ([SeedCommand "npm i"] ++ SeedFile "locked.txt" "z" :: [SeedCommand "fail"]) 2 empty_sst
    = runLessonSeed demo_execute demo_writable ([SeedCommand "npm i"] ++ [SeedFile "locked.txt" "z"]) 2 empty_sst /\
  exists fs' evs,
    runLessonSeed demo_execute demo_writable ([SeedCommand "npm i"] ++ [SeedFile "locked.txt" "z"]) 2 empty_sst =
      (SThrow (WrappedError (WriteError "locked.txt")),
       mkSSt fs' None (slog empty_sst ++ evs ++ [SUnwatch "locked.txt"] ++
                       [SLogErrorLesson "Failed to run seed for lesson: " 2])).
Proof.
  assert (Hpre : Forall (seed_item_runs demo_execute demo_writable) [SeedCommand "npm i"]).
  { constructor; [|constructor]. simpl. eexists. reflexivity. }
  assert (Hit : ~ seed_item_runs demo_execute demo_writable (SeedFile "locked.txt" "z")).
  { simpl. discriminate. }
  split; [exact Hpre|]. split; [exact Hit|].
  exact (runLessonSeed_stops_at_failure demo_execute demo_writable [SeedCommand "npm i"]
           (SeedFile "locked.txt" "z") [SeedCommand "fail"] 2 empty_sst Hpre Hit).
Defined.

Lemma seedLesson_records_lastSeed_witness :
  demo_getProject 1 = Some 1%Z /\ demo_projects 1 = Some 2%Z /\ demo_getLesson 1 2 = Some demo_seed /\
  Forall (seed_item_runs demo_execute demo_writable) demo_seed /\
  fst (runLessonSeed demo_execute demo_writable demo_seed 2 empty_sst) = SOk tt /\
  seedLesson demo_execute demo_writable demo_getProject demo_projects demo_getLesson 1 empty_sst =
    (SOk tt, mkSSt (files (snd (runLessonSeed demo_execute demo_writable demo_seed 2 empty_sst))) (Some (1, 2)%Z)
               (slog (snd (runLessonSeed demo_execute demo_writable demo_seed 2 empty_sst)))).
Proof.
  split; [reflexivity|]. split; [reflexivity|]. split; [reflexivity|]. split; [exact demo_seed_runs|].
  exact (seedLesson_records_lastSeed demo_execute demo_writable demo_getProject demo_projects demo_getLesson
           1 1 2 demo_seed empty_sst eq_refl eq_refl eq_refl demo_seed_runs).
Defined.

Lemma seedLesson_reports_failure_witness :
  demo_getProject 2 = Some 2%Z /\ demo_projects 2 = Some 3%Z /\ demo_getLesson 2 3 = None /\
  exists e s',
    seedLesson demo_execute demo_writable demo_getProject demo_projects demo_getLesson 2 empty_sst =
      (SOk tt, mkSSt (files s') None (slog s' ++ [SUpdateError e; SLogErrorExc e])) /\
    exists evs, slog s' = slog empty_sst ++ evs.
Proof.
  split; [reflexivity|]. split; [reflexivity|]. split; [reflexivity|].
  exact (seedLesson_reports_failure demo_execute demo_writable demo_getProject demo_projects demo_getLesson
           2 2 3 empty_sst eq_refl eq_refl (or_introl eq_refl)).
Defined.

Lemma seedLesson_unknown_project_witness :
  demo_getProject 9 = None /\
  seedLesson demo_execute demo_writable demo_getProject demo_projects demo_getLesson 9 empty_sst
    = (SThrow SeedTypeError, empty_sst).
Proof.
  split; [reflexivity|].
  exact (seedLesson_unknown_project demo_execute demo_writable demo_getProject demo_projects demo_getLesson
           9 empty_sst (or_introl eq_refl)).
Defined.
